(** * stripe-cli plugin utilities: catalog load, lookup, reconciliation
      and archive extraction (pkg/plugins/utilities.go)

    A shallow embedding of the Go code.  Go strings and byte slices are
    both byte sequences and are modelled by [string]; slices are lists; the
    file system, the installed-plugins field of the configuration and a log
    of observable calls form an explicit [World] threaded through a small
    state-and-error monad that also records Go panics.  The two entry
    points [ExtractLocalTarball] and [FetchAndExtractRemoteTarball] only
    open a gzip stream and hand it to [extractFromTarball], which is where
    the model starts. *)

From Stdlib Require Import String Ascii NArith.
From stdpp Require Import base option list strings gmap.

Local Open Scope string_scope.
Local Open Scope list_scope.

(** ** Data model *)

(** Modelled from the spec: the declarations of [Release], [Plugin] and
    [PluginList] live in plugin.go, which is not part of the sources at
    hand.  A release carries a version and a per-platform digest mapping
    keyed by (OS, architecture); of a plugin only the two fields read by
    utilities.go are kept. *)
Record Release := mkRelease {
  Version : string;
  Digests : gmap (string * string) string
}.

Record Plugin := mkPlugin {
  Shortname : string;
  Releases : list Release
}.

Record PluginList := mkPluginList {
  Plugins : list Plugin
}.

(** The zero value of [var l PluginList]. *)
Definition zeroPluginList : PluginList := mkPluginList [].

(** ** Errors *)

(** [ErrorString] is what [fmt.Errorf] builds in this file; [ErrNotExist]
    stands for the errors on which [os.IsNotExist] answers true;
    [ErrExternal] is any other error handed back by a collaborator (toml,
    tar, http, credentials, file system), tagged by its origin. *)
Inductive error :=
| ErrorString (msg : string)
| ErrNotExist (path : string)
| ErrExternal (origin msg : string).

Definition os_IsNotExist (e : error) : bool :=
  match e with ErrNotExist _ => true | _ => false end.

(** [%c] applied to a byte prints the rune of that code point in UTF-8:
    one byte below 128, two bytes from 128 to 255. *)
Definition fmt_c (b : ascii) : string :=
  let n := N_of_ascii b in
  if (n <? 128)%N then String b EmptyString
  else String (ascii_of_N (192 + n / 64))
         (String (ascii_of_N (128 + n mod 64)) EmptyString).

(** line 102 *)
Definition errPluginNotFound (pluginName : string) : error :=
  ErrorString ("Could not find a plugin named " +:+ pluginName).

(** line 329 *)
Definition errUnrecognizedType (name : string) (typeflag : ascii) : error :=
  ErrorString ("unrecognized file type for file " +:+ name +:+ ": " +:+ fmt_c typeflag).

(** line 347 *)
Definition errMalformedArchive : error :=
  ErrorString "missing required manifest.toml or plugin in the archive".

(** ** Observable calls *)

Inductive output :=
| ExtractedManifest (name : string)
| ExtractedPlugin (name : string).

Inductive event :=
| EvReadFile (path : string)
| EvWriteFile (path : string)
| EvGetPluginData (baseURL : string)
| EvHTTPGet (url : string)
| EvWriteConfigField (field : string)
| EvPrintln (o : output).

(** ** The world *)

(** How a write of a whole file can go wrong.  [os.WriteFile] and
    [afero.WriteFile] open with create-and-truncate, write, then close:
    a refusal at the open leaves the file as it was; an error after it
    leaves the file created, truncated and holding only the bytes that
    went through, here the first [written] of them. *)
Inductive write_fault :=
| RefusedAtOpen (e : error)
| FailsAfterOpen (e : error) (written : nat).

(** [files] maps a path to the bytes stored there; the configuration
    file is not among them, it belongs to the configuration collaborator,
    of which the world keeps the one field the code reads and writes,
    [installed_plugins].  [read_faults] lists the paths on which reading
    fails, with the error returned; [write_faults] the paths on which a
    write fails, and how.  [trace] logs the observable calls, the most
    recent last. *)
Record World := mkWorld {
  files : gmap string string;
  read_faults : gmap string error;
  write_faults : gmap string write_fault;
  installed_plugins : list string;
  trace : list event
}.

Definition set_files (f : gmap string string) (w : World) : World :=
  mkWorld f (read_faults w) (write_faults w) (installed_plugins w) (trace w).

Definition set_installed_plugins (l : list string) (w : World) : World :=
  mkWorld (files w) (read_faults w) (write_faults w) l (trace w).

Definition log_event (e : event) (w : World) : World :=
  mkWorld (files w) (read_faults w) (write_faults w) (installed_plugins w)
    (trace w ++ [e]).

(** What survives the process: the files and the installed index. *)
Definition persistent (w : World) : gmap string string * list string :=
  (files w, installed_plugins w).

(** ** Outcomes and the monad *)

Inductive outcome (A : Type) :=
| Ok (a : A)
| Err (e : error)
| Panic (msg : string).
Arguments Ok {A} a.
Arguments Err {A} e.
Arguments Panic {A} msg.

Definition M (A : Type) : Type := World -> outcome A * World.

Definition ret {A} (a : A) : M A := fun w => (Ok a, w).
Definition fail {A} (e : error) : M A := fun w => (Err e, w).
Definition panic {A} (msg : string) : M A := fun w => (Panic msg, w).

Definition bind {A B} (m : M A) (k : A -> M B) : M B :=
  fun w =>
    match m w with
    | (Ok a, w') => k a w'
    | (Err e, w') => (Err e, w')
    | (Panic p, w') => (Panic p, w')
    end.

Declare Scope go_scope.
Delimit Scope go_scope with go.
Notation "x <- m ;; k" := (bind m (fun x => k))
  (at level 100, m at next level, right associativity) : go_scope.
Notation "m ;; k" := (bind m (fun _ => k))
  (at level 100, right associativity) : go_scope.
Local Open Scope go_scope.

Definition emit (e : event) : M unit := fun w => (Ok tt, log_event e w).

(** Lifting a collaborator's [(value, error)] result. *)
Definition lift {A} (r : error + A) : M A :=
  match r with inl e => fail e | inr a => ret a end.

(** ** Library functions used by the code *)

(** [strings.Contains]. *)
Fixpoint strings_Contains (s substr : string) : bool :=
  String.prefix substr s ||
  match s with
  | EmptyString => false
  | String _ s' => strings_Contains s' substr
  end.

(** [filepath.Join] depends on the operating system (separator, volume
    names) and is a field of the collaborators below.  This is what it
    does where the separator is the slash: empty elements are dropped,
    the others joined by a slash, and the result cleaned as
    [filepath.Clean] does: runs of slashes become one, [.] elements go,
    a [..] element goes together with the element before it, or alone at
    the root; the empty result is [.]; with nothing but empty elements
    the result is empty. *)
Fixpoint path_elements (s : string) : list string :=
  match s with
  | EmptyString => [EmptyString]
  | String c s' =>
      if Ascii.eqb c "/" then EmptyString :: path_elements s'
      else match path_elements s' with
           | x :: xs => String c x :: xs
           | [] => [String c EmptyString]
           end
  end.

(** [kept] holds the elements retained so far, the last one first. *)
Fixpoint clean_elements (rooted : bool) (elements kept : list string) : list string :=
  match elements with
  | [] => rev kept
  | x :: rest =>
      if String.eqb x "" || String.eqb x "." then clean_elements rooted rest kept
      else if String.eqb x ".." then
        match kept with
        | top :: kept' =>
            if String.eqb top ".." then clean_elements rooted rest (x :: kept)
            else clean_elements rooted rest kept'
        | [] =>
            if rooted then clean_elements rooted rest kept
            else clean_elements rooted rest (x :: kept)
        end
      else clean_elements rooted rest (x :: kept)
  end.

Definition unix_Clean (path : string) : string :=
  let rooted := String.prefix "/" path in
  let body := String.concat "/" (clean_elements rooted (path_elements path) []) in
  let cleaned := if rooted then "/" +:+ body else body in
  if String.eqb cleaned "" then "." else cleaned.

Definition unix_Join (dir name : string) : string :=
  if String.eqb dir "" then
    if String.eqb name "" then "" else unix_Clean name
  else if String.eqb name "" then unix_Clean dir
  else unix_Clean (dir +:+ "/" +:+ name).

(** [archive/tar] type flags. *)
Definition TypeReg : ascii := "0"%char.
Definition TypeDir : ascii := "5"%char.
Definition TypeSymlink : ascii := "2"%char.

(** The file system.  [afero.ReadFile] on the OS file system and
    [os.ReadFile] behave alike: a fault on the path wins, then absence. *)
Definition ReadFile (path : string) : M string :=
  emit (EvReadFile path) ;;
  fun w =>
    match read_faults w !! path with
    | Some e => (Err e, w)
    | None =>
        match files w !! path with
        | Some body => (Ok body, w)
        | None => (Err (ErrNotExist path), w)
        end
    end.

Definition WriteFile (path : string) (body : string) : M unit :=
  emit (EvWriteFile path) ;;
  fun w =>
    match write_faults w !! path with
    | Some (RefusedAtOpen e) => (Err e, w)
    | Some (FailsAfterOpen e written) =>
        (Err e, set_files (<[path := String.substring 0 written body]> (files w)) w)
    | None => (Ok tt, set_files (<[path := body]> (files w)) w)
    end.

(** [os.Stat(path)] followed by [err == nil]. *)
Definition Stat_ok (path : string) : M bool :=
  fun w => (Ok (bool_decide (is_Some (files w !! path))), w).

(** Running [m] and handing its error, if any, to the caller as a value:
    the Go idiom [v, err := f()] followed by a test of [err]. *)
Definition attempt {A} (m : M A) : M (error + A) :=
  fun w =>
    match m w with
    | (Ok a, w') => (Ok (inr a), w')
    | (Err e, w') => (Ok (inl e), w')
    | (Panic p, w') => (Panic p, w')
    end.

(** ** Collaborators *)

(** What [client.Do] hands back when the request went through. *)
Record Response := mkResponse {
  StatusCode : nat;
  Body : string
}.


(** Everything the code reaches through an interface or another package
    and only reads: the configuration ([config.IConfig], environment
    variables, package variables), the runtime platform, the remote
    origin, the TOML codec, the digest used by the installer and the path
    join of the platform.  [toml_Decode] receives the value it decodes
    into, as Go's decoder does through the pointer.  [http_GET] gives an
    error when the request cannot be built, sent or its body read, and
    else the response, whatever its status. *)
Class Collaborators := {
  filepath_Join : string -> string -> string;
  GetConfigFolder : string;
  GetAPIKey : error + string;
  STRIPE_PLUGINS_PATH : string;
  PluginsPath : string;
  GOOS : string;
  GOARCH : string;
  DefaultAPIBaseURL : string;
  GetPluginData : string -> string -> error + string;
  http_GET : string -> error + Response;
  toml_Decode : string -> PluginList -> error + PluginList;
  toml_Encode : PluginList -> error + string;
  digest : string -> string
}.

(** ** Pure loops *)

(** Lines 96-100: the first plugin whose name is the queried one. *)
Fixpoint lookUpLoop (pluginName : string) (ps : list Plugin) : option Plugin :=
  match ps with
  | [] => None
  | p :: rest =>
      if String.eqb pluginName (Shortname p) then Some p
      else lookUpLoop pluginName rest
  end.

(** Lines 147-156: the scan stops at the first plugin named like the
    entry and appends [entry.Releases[0]] to its releases; indexing an
    empty [entry.Releases] panics, and only when a match is reached.  The
    boolean is [foundPlugin]. *)
Fixpoint appendLoop (entry : Plugin) (ps : list Plugin)
  : outcome (bool * list Plugin) :=
  match ps with
  | [] => Ok (false, [])
  | p :: rest =>
      if String.eqb (Shortname p) (Shortname entry) then
        match Releases entry with
        | r0 :: _ => Ok (true, mkPlugin (Shortname p) (Releases p ++ [r0]) :: rest)
        | [] => Panic "index out of range [0] with length 0"
        end
      else
        match appendLoop entry rest with
        | Ok (found, rest') => Ok (found, p :: rest')
        | Err e => Err e
        | Panic m => Panic m
        end
  end.

(** Lines 147-161. *)
Definition mergeEntry (entry : Plugin) (current : PluginList) : outcome PluginList :=
  match appendLoop entry (Plugins current) with
  | Ok (true, ps) => Ok (mkPluginList ps)
  | Ok (false, ps) => Ok (mkPluginList (ps ++ [entry]))
  | Err e => Err e
  | Panic m => Panic m
  end.

(** Lines 178-183: the loop does not stop at a match. *)
Fixpoint isInstalledLoop (name : string) (installedList : list string)
  (isInstalled : bool) : bool :=
  match installedList with
  | [] => isInstalled
  | n :: rest =>
      isInstalledLoop name rest (if String.eqb n name then true else isInstalled)
  end.

(** Lines 178-187. *)
Definition addInstalled (name : string) (installedList : list string) : list string :=
  if isInstalledLoop name installedList false then installedList
  else installedList ++ [name].

(** ** The archive stream *)

Record Header := mkHeader {
  Name : string;
  Typeflag : ascii
}.

(** What successive calls of [tarReader.Next] give: a header, whose
    content [ioutil.ReadAll(tarReader)] would return, then the rest; or
    [io.EOF]; or another error, after which the code reads no further. *)
Inductive TarStream :=
| EOF
| Broken (e : error)
| Entry (h : Header) (content : string) (rest : TarStream).

Fixpoint headers (t : TarStream) : list Header :=
  match t with
  | EOF | Broken _ => []
  | Entry h _ rest => h :: headers rest
  end.

Section Code.
Context {C : Collaborators}.

(** ** Paths *)

(** Line 33, on the platform of the collaborators. *)
Definition GetBinaryExtension : string :=
  if String.eqb GOOS "windows" then ".exe" else "".

(** Lines 42-57. *)
Definition getPluginsDir : string :=
  if negb (String.eqb STRIPE_PLUGINS_PATH "") then STRIPE_PLUGINS_PATH
  else if negb (String.eqb PluginsPath "") then PluginsPath
  else filepath_Join GetConfigFolder "plugins".

Definition pluginManifestPath : string :=
  filepath_Join GetConfigFolder "plugins.toml".

(** ** Remote catalog *)

(** Lines 196-229: one GET; request construction, transport and body
    read can each fail, which [http_GET] folds into one result.  The
    status of the response is not looked at: the body is returned. *)
Definition FetchRemoteResource (url : string) : M string :=
  emit (EvHTTPGet url) ;;
  resp <- lift (http_GET url) ;;
  ret (Body resp).

(** Lines 106-133. *)
Definition RefreshPluginManifest (baseURL : string) : M unit :=
  apiKey <- lift GetAPIKey ;;
  pluginBaseURL <- (emit (EvGetPluginData baseURL) ;;
                    lift (GetPluginData baseURL apiKey)) ;;
  body <- FetchRemoteResource (pluginBaseURL +:+ "/" +:+ "plugins.toml") ;;
  WriteFile pluginManifestPath body.

(** ** Catalog store *)

(** Lines 60-86. *)
Definition GetPluginList : M PluginList :=
  r <- attempt (ReadFile pluginManifestPath) ;;
  r' <- match r with
        | inl e =>
            if os_IsNotExist e then
              RefreshPluginManifest DefaultAPIBaseURL ;;
              attempt (ReadFile pluginManifestPath)
            else ret r
        | inr _ => ret r
        end ;;
  file <- lift r' ;;
  lift (toml_Decode file zeroPluginList).

(** Lines 89-103. *)
Definition LookUpPlugin (pluginName : string) : M Plugin :=
  pluginList <- GetPluginList ;;
  match lookUpLoop pluginName (Plugins pluginList) with
  | Some p => ret p
  | None => fail (errPluginNotFound pluginName)
  end.

(** ** Reconciliation *)

(** [toml.DecodeFile]: read the file, decode into [v]. *)
Definition toml_DecodeFile (path : string) (v : PluginList) : M PluginList :=
  body <- ReadFile path ;;
  lift (toml_Decode body v).

(** Modelled from the spec: the configuration collaborator's methods are
    declared in pkg/config, absent here.  [InitConfig] reloads the
    configuration, which the world already holds; [GetInstalledPlugins]
    reads the installed index; [WriteConfigField] persists it (the code
    discards whatever it returns). *)
Definition InitConfig : M unit := ret tt.

Definition GetInstalledPlugins : M (list string) :=
  fun w => (Ok (installed_plugins w), w).

Definition WriteConfigField_installed_plugins (l : list string) : M unit :=
  emit (EvWriteConfigField "installed_plugins") ;;
  fun w => (Ok tt, set_installed_plugins l w).

(** Lines 136-193. *)
Definition AddEntryToPluginManifest (entry : Plugin) : M unit :=
  present <- Stat_ok pluginManifestPath ;;
  currentPluginList <-
    (if present : bool then toml_DecodeFile pluginManifestPath zeroPluginList
     else ret zeroPluginList) ;;
  merged <- (fun w => (mergeEntry entry currentPluginList, w)) ;;
  buf <- lift (toml_Encode merged) ;;
  WriteFile pluginManifestPath buf ;;
  InitConfig ;;
  installedList <- GetInstalledPlugins ;;
  WriteConfigField_installed_plugins (addInstalled (Shortname entry) installedList).

(** ** Installer *)

Definition errIntegrity (name : string) : error :=
  ErrExternal "installer" ("checksum mismatch for " +:+ name).

Definition errNoDigest (name : string) : error :=
  ErrExternal "installer" ("no checksum known for " +:+ name).

Definition pluginBinaryPath (p : Plugin) : string :=
  filepath_Join getPluginsDir (Shortname p +:+ GetBinaryExtension).

(** Modelled from the spec: [verifychecksumAndSavePlugin] is a method of
    plugin.go, absent here.  Following section 4.5: the release of the
    given version is looked up, then its expected digest for the running
    platform; the digest of the bytes is compared with it; on mismatch
    (or when no digest is known) it fails and nothing is written; on
    match the bytes are written under the plugins directory, with the
    platform's executable suffix. *)
Definition verifychecksumAndSavePlugin (p : Plugin) (pluginData version : string)
  : M unit :=
  match find (fun r => String.eqb (Version r) version) (Releases p) with
  | None => fail (errNoDigest (Shortname p))
  | Some r =>
      match Digests r !! (GOOS, GOARCH) with
      | None => fail (errNoDigest (Shortname p))
      | Some expected =>
          if String.eqb (digest pluginData) expected
          then WriteFile (pluginBinaryPath p) pluginData
          else fail (errIntegrity (Shortname p))
      end
  end.

(** ** Archive extractor *)

(** Lines 301-331: the loop over the entries, carrying [manifest] and
    [pluginData].  The error of [ioutil.ReadAll] is discarded by the code,
    so [content] is whatever bytes were read. *)
Fixpoint scanLoop (t : TarStream) (manifest : PluginList) (pluginData : string)
  : M (PluginList * string) :=
  match t with
  | EOF => ret (manifest, pluginData)
  | Broken e => fail e
  | Entry header content rest =>
      let name := Name header in
      if Ascii.eqb (Typeflag header) TypeDir then
        scanLoop rest manifest pluginData
      else if Ascii.eqb (Typeflag header) TypeReg then
        if String.eqb name "manifest.toml" then
          manifest' <- lift (toml_Decode content manifest) ;;
          emit (EvPrintln (ExtractedManifest name)) ;;
          scanLoop rest manifest' pluginData
        else if strings_Contains name "stripe-cli-" then
          emit (EvPrintln (ExtractedPlugin name)) ;;
          scanLoop rest manifest content
        else
          scanLoop rest manifest pluginData
      else
        fail (errUnrecognizedType name (Typeflag header))
  end.

(** Line 334. *)
Definition accepted (manifest : PluginList) (pluginData : string) : bool :=
  Nat.eqb (length (Plugins manifest)) 1 && Nat.ltb 0 (String.length pluginData).

(** Lines 334-348, after the loop. *)
Definition installExtracted (manifest : PluginList) (pluginData : string) : M unit :=
  if accepted manifest pluginData then
    match Plugins manifest with
    | plugin :: _ =>
        AddEntryToPluginManifest plugin ;;
        match Releases plugin with
        | r0 :: _ => verifychecksumAndSavePlugin plugin pluginData (Version r0)
        | [] => panic "index out of range [0] with length 0"
        end
    | [] => panic "index out of range [0] with length 0"
    end
  else fail errMalformedArchive.

(** Lines 296-351. *)
Definition extractFromTarball (tarReader : TarStream) : M unit :=
  scanned <- scanLoop tarReader zeroPluginList "" ;;
  installExtracted (fst scanned) (snd scanned).

End Code.

(** ** Command annotations *)

(** Lines 361-371.  [cmd.Annotations] is a Go map, and [range] visits its
    pairs in an order the language leaves open; [annotations] is the
    sequence of pairs of one such visit.  The loop does not stop at a
    match. *)
Fixpoint isPluginLoop (annotations : list (string * string)) (isPlugin : bool)
  : bool :=
  match annotations with
  | [] => isPlugin
  | (key, value) :: rest =>
      isPluginLoop rest
        (if String.eqb key "scope" && String.eqb value "plugin" then true
         else isPlugin)
  end.

Definition IsPluginCommand (annotations : list (string * string)) : bool :=
  isPluginLoop annotations false.

(** ** Vocabulary of the statements *)

Section Vocabulary.
Context {C : Collaborators}.

(** The catalog that reconciliation starts from in world [w]: the zero
    value when nothing is stored at the catalog path, else what the
    stored bytes decode to. *)
Definition storedCatalog (w : World) (current : PluginList) : Prop :=
  match files w !! pluginManifestPath with
  | None => current = zeroPluginList
  | Some body =>
      read_faults w !! pluginManifestPath = None /\
      toml_Decode body zeroPluginList = inr current
  end.

(** An entry that is neither a directory nor a regular file. *)
Definition unsupported (h : Header) : bool :=
  negb (Ascii.eqb (Typeflag h) TypeDir) && negb (Ascii.eqb (Typeflag h) TypeReg).

(** The stream up to its first entry that is neither a directory nor a
    regular file, that entry excluded. *)
Fixpoint before_unsupported (t : TarStream) : TarStream :=
  match t with
  | EOF => EOF
  | Broken e => Broken e
  | Entry h content rest =>
      if unsupported h then EOF
      else Entry h content (before_unsupported rest)
  end.

(** The contents of the regular files named manifest.toml. *)
Fixpoint fragments (t : TarStream) : list string :=
  match t with
  | EOF | Broken _ => []
  | Entry h content rest =>
      if Ascii.eqb (Typeflag h) TypeReg && String.eqb (Name h) "manifest.toml"
      then content :: fragments rest
      else fragments rest
  end.

(** The contents of the regular files taken as the binary payload. *)
Fixpoint payloads (t : TarStream) : list string :=
  match t with
  | EOF | Broken _ => []
  | Entry h content rest =>
      if Ascii.eqb (Typeflag h) TypeReg
         && negb (String.eqb (Name h) "manifest.toml")
         && strings_Contains (Name h) "stripe-cli-"
      then content :: payloads rest
      else payloads rest
  end.

(** The stream without the entries the scan passes over: directories, and
    regular files that are neither the fragment nor a payload. *)
Fixpoint strip (t : TarStream) : TarStream :=
  match t with
  | EOF => EOF
  | Broken e => Broken e
  | Entry h content rest =>
      if Ascii.eqb (Typeflag h) TypeDir then strip rest
      else if Ascii.eqb (Typeflag h) TypeReg
              && negb (String.eqb (Name h) "manifest.toml")
              && negb (strings_Contains (Name h) "stripe-cli-")
      then strip rest
      else Entry h content (strip rest)
  end.

(** How the stream ends: at [io.EOF], or on an error of the reader. *)
Fixpoint terminal (t : TarStream) : option error :=
  match t with
  | EOF => None
  | Broken e => Some e
  | Entry _ _ rest => terminal rest
  end.

(** Decoding fragments one after the other, each into the value the
    previous one left. *)
Fixpoint decodeFragments (contents : list string) (manifest : PluginList)
  : error + PluginList :=
  match contents with
  | [] => inr manifest
  | content :: rest =>
      match toml_Decode content manifest with
      | inl e => inl e
      | inr manifest' => decodeFragments rest manifest'
      end
  end.

(** The names of a catalog, in order. *)
Definition names (l : PluginList) : list string := map Shortname (Plugins l).

Definition count_events (P : event -> bool) (w : World) : nat :=
  length (filter (fun e => P e = true) (trace w)).

Definition is_read (path : string) (e : event) : bool :=
  match e with EvReadFile p => String.eqb p path | _ => false end.

Definition is_remote (e : event) : bool :=
  match e with EvGetPluginData _ | EvHTTPGet _ => true | _ => false end.

End Vocabulary.

(** ** A concrete installation, for running the code *)

Module Fixture.

Definition r100 : Release :=
  mkRelease "1.0.0" {[ ("linux", "amd64") := "sha256:B" ]}.
Definition r110 : Release :=
  mkRelease "1.1.0" {[ ("linux", "amd64") := "sha256:B" ]}.
Definition r200 : Release :=
  mkRelease "2.0.0" {[ ("linux", "amd64") := "sha256:other" ]}.

Definition hello : Plugin := mkPlugin "hello" [r100].
Definition hello_next : Plugin := mkPlugin "hello" [r110].
Definition hello_two : Plugin := mkPlugin "hello" [r100; r110].
Definition hello_none : Plugin := mkPlugin "hello" [].
Definition hello_bad : Plugin := mkPlugin "hello" [r200].
Definition tools : Plugin := mkPlugin "tools" [r100].

(** A line-per-plugin rendering; enough to tell catalogs apart. *)
Definition render_plugin (p : Plugin) : string :=
  Shortname p +:+ "=" +:+ String.concat "," (map Version (Releases p)) +:+ ";".

Definition render (l : PluginList) : string :=
  String.concat "" (map render_plugin (Plugins l)).

(** The documents the toy decoder understands. *)
Definition documents : list PluginList :=
  [ mkPluginList [hello]; mkPluginList [hello_next]; mkPluginList [hello_two];
    mkPluginList [hello_none]; mkPluginList [hello_bad];
    mkPluginList [tools]; mkPluginList [tools; hello];
    mkPluginList [tools; hello; hello] ].

Definition decode (s : string) (_ : PluginList) : error + PluginList :=
  match find (fun l => String.eqb (render l) s) documents with
  | Some l => inr l
  | None => inl (ErrExternal "toml" "cannot parse")
  end.

#[local] Instance collaborators : Collaborators := {|
  filepath_Join := unix_Join;
  GetConfigFolder := "/cfg";
  GetAPIKey := inr "sk_test";
  STRIPE_PLUGINS_PATH := "";
  PluginsPath := "";
  GOOS := "linux";
  GOARCH := "amd64";
  DefaultAPIBaseURL := "https://api.stripe.com";
  GetPluginData := fun _ _ => inr "https://plugins.example";
  http_GET := fun url =>
    if String.eqb url "https://plugins.example/plugins.toml"
    then inr (mkResponse 200 (render (mkPluginList [tools])))
    else inl (ErrExternal "http" "unreachable");
  toml_Decode := decode;
  toml_Encode := fun l => inr (render l);
  digest := fun s => "sha256:" +:+ s
|}.

(** The same installation before an origin that has no catalog for the
    account and answers 404 with a page of its own. *)
Definition without_catalog : Collaborators := {|
  filepath_Join := unix_Join;
  GetConfigFolder := "/cfg";
  GetAPIKey := inr "sk_test";
  STRIPE_PLUGINS_PATH := "";
  PluginsPath := "";
  GOOS := "linux";
  GOARCH := "amd64";
  DefaultAPIBaseURL := "https://api.stripe.com";
  GetPluginData := fun _ _ => inr "https://plugins.example";
  http_GET := fun _ => inr (mkResponse 404 "404 page not found");
  toml_Decode := decode;
  toml_Encode := fun l => inr (render l);
  digest := fun s => "sha256:" +:+ s
|}.

(** Nothing stored, nothing installed. *)
Definition fresh : World := mkWorld ∅ ∅ ∅ [] [].

(** A catalog holding [tools] and [hello]; [tools] installed. *)
Definition stocked : World :=
  mkWorld {[ "/cfg/plugins.toml" := render (mkPluginList [tools; hello]) ]}
    ∅ ∅ ["tools"] [].

Definition file (name content : string) (rest : TarStream) : TarStream :=
  Entry (mkHeader name TypeReg) content rest.

(** manifest.toml with one plugin and one release, and its binary. *)
Definition good_archive : TarStream :=
  Entry (mkHeader "pkg/" TypeDir) ""
    (file "manifest.toml" (render (mkPluginList [hello]))
      (file "README.md" "read me"
        (file "pkg/stripe-cli-hello" "B" EOF))).

Definition archive_of (p : Plugin) (payload : string) : TarStream :=
  file "manifest.toml" (render (mkPluginList [p]))
    (file "stripe-cli-hello" payload EOF).

Definition symlink_after_garbage : TarStream :=
  file "manifest.toml" "not toml"
    (Entry (mkHeader "link" TypeSymlink) "" EOF).

Definition symlink_last : TarStream :=
  file "manifest.toml" (render (mkPluginList [hello]))
    (file "stripe-cli-hello" "B"
      (Entry (mkHeader "link" TypeSymlink) "" EOF)).

End Fixture.

(** ** Proof automation for runs *)

(** Case analysis on the innermost scrutinee of a run. *)
Ltac destruct_scrutinee H :=
  match type of H with
  | context [match ?x with _ => _ end] =>
      lazymatch x with
      | context [match _ with _ => _ end] => fail
      | _ => destruct x eqn:?
      end
  end.

Ltac unfold_monad_in H :=
  cbv beta iota delta [fail ret panic lift emit bind attempt] in H.

Ltac unfold_monad :=
  cbv beta iota delta [fail ret panic lift emit bind attempt].

(** * Properties *)

Example good_archive_runs :
  let '(r, w) := @extractFromTarball Fixture.collaborators Fixture.good_archive Fixture.fresh in
  r = Ok tt /\
  files w = {[ "/cfg/plugins.toml" := "hello=1.0.0;"; "/cfg/plugins/hello" := "B" ]} /\
  installed_plugins w = ["hello"].
Proof. vm_compute. done. Qed.

(** ** The pure loops *)

Lemma lookUpLoop_first (pluginName : string) (ps l1 l2 : list Plugin) (p : Plugin) :
  ps = l1 ++ p :: l2 ->
  Shortname p = pluginName ->
  Forall (fun q => Shortname q <> pluginName) l1 ->
  lookUpLoop pluginName ps = Some p.
Proof.
  intros -> Hp Hl1. induction Hl1 as [|q l1 Hq _ IH]; simpl.
  - rewrite <- Hp, String.eqb_refl. reflexivity.
  - destruct (String.eqb_spec pluginName (Shortname q)) as [E|_]; [|exact IH].
    symmetry in E. contradiction.
Qed.

Lemma lookUpLoop_none (pluginName : string) (ps : list Plugin) :
  Forall (fun q => Shortname q <> pluginName) ps ->
  lookUpLoop pluginName ps = None.
Proof.
  induction 1 as [|q l Hq _ IH]; simpl; [reflexivity|].
  destruct (String.eqb_spec pluginName (Shortname q)) as [E|_]; [|exact IH].
  symmetry in E. contradiction.
Qed.

Lemma appendLoop_found (entry p : Plugin) (ps : list Plugin) (i : nat)
  (r0 : Release) (rs : list Release) :
  ps !! i = Some p ->
  Shortname p = Shortname entry ->
  (forall j q, j < i -> ps !! j = Some q -> Shortname q <> Shortname entry) ->
  Releases entry = r0 :: rs ->
  appendLoop entry ps
  = Ok (true, <[i := mkPlugin (Shortname p) (Releases p ++ [r0])]> ps).
Proof.
  intros Hi Hp Hfirst Hr. revert i Hi Hfirst.
  induction ps as [|q ps IH]; intros i Hi Hfirst; [discriminate|].
  destruct i as [|i]; simpl in *.
  - injection Hi as ->. rewrite Hp, String.eqb_refl, Hr. reflexivity.
  - destruct (String.eqb_spec (Shortname q) (Shortname entry)) as [E|_].
    + exfalso. apply (Hfirst 0 q); [lia|reflexivity|exact E].
    + rewrite (IH i Hi); [reflexivity|].
      intros j q' Hj Hq'. apply (Hfirst (S j) q'); [lia|exact Hq'].
Qed.

Lemma appendLoop_absent (entry : Plugin) (ps : list Plugin) :
  Forall (fun q => Shortname q <> Shortname entry) ps ->
  appendLoop entry ps = Ok (false, ps).
Proof.
  induction 1 as [|q l Hq _ IH]; simpl; [reflexivity|].
  destruct (String.eqb_spec (Shortname q) (Shortname entry)) as [E|_];
    [contradiction|].
  rewrite IH. reflexivity.
Qed.

Lemma isInstalledLoop_spec (name : string) (l : list string) (b : bool) :
  isInstalledLoop name l b = b || bool_decide (name ∈ l).
Proof.
  revert b. induction l as [|n l IH]; intros b; cbn [isInstalledLoop].
  - case_bool_decide as H; [by apply elem_of_nil in H|by rewrite orb_false_r].
  - rewrite IH. destruct (String.eqb_spec n name) as [->|Hne].
    + rewrite (bool_decide_eq_true_2 (name ∈ name :: l)); [|by left].
      by rewrite orb_true_r.
    + destruct (decide (name ∈ l)) as [Hin|Hnin].
      * rewrite (bool_decide_eq_true_2 (name ∈ l) Hin).
        rewrite (bool_decide_eq_true_2 (name ∈ n :: l)); [done|by right].
      * rewrite (bool_decide_eq_false_2 (name ∈ l) Hnin).
        rewrite (bool_decide_eq_false_2 (name ∈ n :: l)); [done|].
        intros [?|?]%elem_of_cons; [by subst|done].
Qed.

Lemma addInstalled_present (name : string) (l : list string) :
  name ∈ l -> addInstalled name l = l.
Proof.
  intros Hin. unfold addInstalled. rewrite isInstalledLoop_spec.
  by rewrite bool_decide_eq_true_2.
Qed.

Lemma addInstalled_absent (name : string) (l : list string) :
  name ∉ l -> addInstalled name l = l ++ [name].
Proof.
  intros Hin. unfold addInstalled. rewrite isInstalledLoop_spec.
  by rewrite bool_decide_eq_false_2.
Qed.

Lemma strings_Contains_unfold (s sub : string) :
  strings_Contains s sub
  = String.prefix sub s ||
    match s with
    | EmptyString => false
    | String _ s' => strings_Contains s' sub
    end.
Proof. destruct s; reflexivity. Qed.

Lemma prefix_append (sub b : string) : String.prefix sub (sub +:+ b) = true.
Proof.
  induction sub as [|c sub IH]; simpl.
  - by destruct b.
  - destruct (Ascii.ascii_dec c c); [exact IH|done].
Qed.

Lemma strings_Contains_intro (a sub b : string) :
  strings_Contains (a +:+ sub +:+ b) sub = true.
Proof.
  induction a as [|c a IH].
  - rewrite strings_Contains_unfold. change ("" +:+ sub +:+ b) with (sub +:+ b).
    by rewrite prefix_append.
  - simpl. apply orb_true_iff. right. exact IH.
Qed.

Lemma prefix_split (sub s : string) :
  String.prefix sub s = true -> exists b, s = sub +:+ b.
Proof.
  revert s. induction sub as [|c sub IH]; intros s H.
  - by exists s.
  - destruct s as [|c' s]; [discriminate|]. simpl in H.
    destruct (Ascii.ascii_dec c c') as [->|]; [|discriminate].
    destruct (IH s H) as [b ->]. by exists b.
Qed.

Lemma strings_Contains_elim (s sub : string) :
  strings_Contains s sub = true -> exists a b, s = a +:+ sub +:+ b.
Proof.
  induction s as [|c s IH]; rewrite strings_Contains_unfold;
    intros [H|H]%orb_true_iff.
  - apply prefix_split in H as [b ->]. by exists "", b.
  - discriminate.
  - apply prefix_split in H as [b Hb]. exists "", b. exact Hb.
  - destruct (IH H) as (a & b & ->). by exists (String c a), b.
Qed.

(** ** Effects of the stateful functions *)

Section Effects.
Context {C : Collaborators}.

Lemma ReadFile_run (path : string) (w : World) :
  ReadFile path w
  = (match read_faults w !! path with
     | Some e => Err e
     | None =>
         match files w !! path with
         | Some body => Ok body
         | None => Err (ErrNotExist path)
         end
     end, log_event (EvReadFile path) w).
Proof.
  unfold ReadFile. unfold_monad. simpl.
  destruct (read_faults w !! path); [reflexivity|].
  destruct (files w !! path); reflexivity.
Qed.

Lemma WriteFile_run (path body : string) (w : World) :
  WriteFile path body w
  = match write_faults w !! path with
    | Some (RefusedAtOpen e) => (Err e, log_event (EvWriteFile path) w)
    | Some (FailsAfterOpen e written) =>
        (Err e, set_files (<[path := String.substring 0 written body]> (files w))
                  (log_event (EvWriteFile path) w))
    | None =>
        (Ok tt, set_files (<[path := body]> (files w)) (log_event (EvWriteFile path) w))
    end.
Proof.
  unfold WriteFile. unfold_monad. simpl.
  destruct (write_faults w !! path) as [[e|e written]|]; reflexivity.
Qed.

Ltac run_in H :=
  repeat (unfold_monad_in H;
          try rewrite ReadFile_run in H;
          try rewrite WriteFile_run in H;
          destruct_scrutinee H);
  unfold_monad_in H.

(** The scan only prints. *)
Lemma scanLoop_persistent (t : TarStream) (m : PluginList) (d : string) (w : World) :
  persistent (scanLoop t m d w).2 = persistent w.
Proof.
  revert m d w. induction t as [|e|h content rest IH]; intros m d w; simpl;
    [reflexivity..|].
  destruct (Ascii.eqb (Typeflag h) TypeDir); [apply IH|].
  destruct (Ascii.eqb (Typeflag h) TypeReg); [|reflexivity].
  destruct (String.eqb (Name h) "manifest.toml").
  - unfold_monad. destruct (toml_Decode content m); simpl; [reflexivity|].
    rewrite IH. reflexivity.
  - destruct (strings_Contains (Name h) "stripe-cli-"); [|apply IH].
    unfold_monad. rewrite IH. reflexivity.
Qed.

(** Reconciliation that does not return normally leaves the installed
    index alone, and the files too, but for a write of the catalog that
    failed after the file was opened: the catalog file then holds the
    first bytes of the encoded catalog. *)
Lemma AddEntry_not_ok_effect (entry : Plugin) (w w' : World) (r : outcome unit) :
  AddEntryToPluginManifest entry w = (r, w') ->
  r <> Ok tt ->
  installed_plugins w' = installed_plugins w /\
  (files w' = files w \/
   exists e written buf,
     write_faults w !! pluginManifestPath = Some (FailsAfterOpen e written) /\
     r = Err e /\
     files w' = <[pluginManifestPath := String.substring 0 written buf]> (files w)).
Proof.
  unfold AddEntryToPluginManifest, Stat_ok, toml_DecodeFile, InitConfig,
    GetInstalledPlugins, WriteConfigField_installed_plugins.
  intros H Hr. run_in H; injection H as <- <-; simpl in *;
    (split; [done|]); try (by left); try done.
  all: right; do 3 eexists; split; [eassumption || reflexivity|split; reflexivity].
Qed.

Lemma AddEntry_not_ok_persistent (entry : Plugin) (w w' : World) (r : outcome unit) :
  AddEntryToPluginManifest entry w = (r, w') ->
  r <> Ok tt ->
  (forall e written,
      write_faults w !! pluginManifestPath <> Some (FailsAfterOpen e written)) ->
  persistent w' = persistent w.
Proof.
  intros H Hr Hopen.
  destruct (AddEntry_not_ok_effect entry w w' r H Hr)
    as [Hinst [Hfiles|(e & written & buf & Hfault & _)]].
  - unfold persistent. by rewrite Hinst, Hfiles.
  - by destruct (Hopen e written).
Qed.

(** The installed index after a normal return. *)
Lemma AddEntry_ok_installed (entry : Plugin) (w w' : World) :
  AddEntryToPluginManifest entry w = (Ok tt, w') ->
  installed_plugins w' = addInstalled (Shortname entry) (installed_plugins w) /\
  last (trace w') = Some (EvWriteConfigField "installed_plugins").
Proof.
  unfold AddEntryToPluginManifest, Stat_ok, toml_DecodeFile, InitConfig,
    GetInstalledPlugins, WriteConfigField_installed_plugins.
  intros H. run_in H; try discriminate; injection H as <-; simpl;
    (split; [reflexivity|apply last_snoc]).
Qed.

(** A normal return of reconciliation, in full. *)
Lemma AddEntry_ok (entry : Plugin) (w : World) (current merged : PluginList)
  (buf : string) :
  storedCatalog w current ->
  mergeEntry entry current = Ok merged ->
  toml_Encode merged = inr buf ->
  write_faults w !! pluginManifestPath = None ->
  exists w',
    AddEntryToPluginManifest entry w = (Ok tt, w') /\
    files w' = <[pluginManifestPath := buf]> (files w) /\
    installed_plugins w' = addInstalled (Shortname entry) (installed_plugins w).
Proof.
  unfold storedCatalog. intros Hcur Hmerge Henc Hwr.
  unfold AddEntryToPluginManifest, Stat_ok, toml_DecodeFile, InitConfig,
    GetInstalledPlugins, WriteConfigField_installed_plugins.
  destruct (files w !! pluginManifestPath) as [body|] eqn:Hf.
  - destruct Hcur as [Hrf Hdec].
    unfold_monad. rewrite Hf, bool_decide_eq_true_2 by eauto.
    unfold_monad. rewrite ReadFile_run, Hrf, Hf, Hdec, Hmerge, Henc, WriteFile_run.
    simpl. rewrite Hwr. eexists. split; [reflexivity|]. done.
  - subst current.
    unfold_monad. rewrite Hf, bool_decide_eq_false_2 by (intros [? ?]; discriminate).
    unfold_monad. rewrite Hmerge, Henc, WriteFile_run. simpl. rewrite Hwr.
    eexists. split; [reflexivity|]. done.
Qed.

End Effects.

(** * The claims *)

Section Reconciliation.
Context {C : Collaborators}.

(** C3.  When the stored catalog holds a plugin named like the entry, with
    [p] the first such plugin, at index [i], reconciling an entry whose
    first release is [r'] gives a catalog of the same length in which
    index [i] holds [p]'s name with releases [Releases p ++ [r']] and
    every other index holds what it held; and, when encoding and the
    write go through, that catalog is what is stored. *)
Theorem reconcile_existing_appends (entry p : Plugin) (r' : Release) (i : nat)
  (w : World) (current : PluginList) :
  storedCatalog w current ->
  Plugins current !! i = Some p ->
  Shortname p = Shortname entry ->
  (forall j q, j < i -> Plugins current !! j = Some q ->
               Shortname q <> Shortname entry) ->
  Releases entry !! 0 = Some r' ->
  exists merged,
    mergeEntry entry current = Ok merged /\
    length (Plugins merged) = length (Plugins current) /\
    Plugins merged !! i = Some (mkPlugin (Shortname p) (Releases p ++ [r'])) /\
    (forall j, j <> i -> Plugins merged !! j = Plugins current !! j) /\
    (forall buf,
        toml_Encode merged = inr buf ->
        write_faults w !! pluginManifestPath = None ->
        exists w',
          AddEntryToPluginManifest entry w = (Ok tt, w') /\
          files w' = <[pluginManifestPath := buf]> (files w)).
Proof.
  intros Hcur Hi Hp Hfirst Hr.
  destruct (Releases entry) as [|r0 rs] eqn:Hrel; [discriminate|].
  injection Hr as ->.
  pose proof (appendLoop_found entry p (Plugins current) i r' rs Hi Hp Hfirst Hrel)
    as Hloop.
  exists (mkPluginList (<[i := mkPlugin (Shortname p) (Releases p ++ [r'])]> (Plugins current))).
  assert (Hmerge : mergeEntry entry current
                   = Ok (mkPluginList (<[i := mkPlugin (Shortname p) (Releases p ++ [r'])]>
                                         (Plugins current)))).
  { unfold mergeEntry. rewrite Hloop. reflexivity. }
  split; [exact Hmerge|]. simpl.
  split; [apply length_insert|].
  split; [apply list_lookup_insert_eq; by eapply lookup_lt_Some|].
  split; [intros j Hj; by apply list_lookup_insert_ne|].
  intros buf Henc Hwr.
  destruct (AddEntry_ok entry w current _ buf Hcur Hmerge Henc Hwr) as (w' & Hrun & Hf & _).
  by exists w'.
Qed.

(** C4.  When no plugin of the stored catalog is named like the entry,
    reconciliation gives the catalog followed by the entry itself, one
    plugin more, the new one carrying the entry's single release; a
    catalog path with nothing stored counts as the empty catalog, so the
    result is then the entry alone; and, when encoding and the write go
    through, that catalog is what is stored. *)
Theorem reconcile_new_inserts (entry : Plugin) (w : World) (current : PluginList) :
  storedCatalog w current ->
  Forall (fun q => Shortname q <> Shortname entry) (Plugins current) ->
  exists merged,
    mergeEntry entry current = Ok merged /\
    Plugins merged = Plugins current ++ [entry] /\
    length (Plugins merged) = S (length (Plugins current)) /\
    (forall r, Releases entry = [r] ->
               exists e', last (Plugins merged) = Some e' /\ Releases e' = [r]) /\
    (files w !! pluginManifestPath = None -> Plugins merged = [entry]) /\
    (forall buf,
        toml_Encode merged = inr buf ->
        write_faults w !! pluginManifestPath = None ->
        exists w',
          AddEntryToPluginManifest entry w = (Ok tt, w') /\
          files w' = <[pluginManifestPath := buf]> (files w)).
Proof.
  intros Hcur Hfresh.
  assert (Hmerge : mergeEntry entry current
                   = Ok (mkPluginList (Plugins current ++ [entry]))).
  { unfold mergeEntry. rewrite (appendLoop_absent _ _ Hfresh). reflexivity. }
  eexists. split; [exact Hmerge|]. simpl.
  split; [reflexivity|].
  split; [rewrite length_app; simpl; lia|].
  split; [intros r Hr; exists entry; split; [apply last_snoc|exact Hr]|].
  split.
  - intros Hnone. unfold storedCatalog in Hcur. rewrite Hnone in Hcur.
    by subst current.
  - intros buf Henc Hwr.
    destruct (AddEntry_ok entry w current _ buf Hcur Hmerge Henc Hwr)
      as (w' & Hrun & Hf & _).
    by exists w'.
Qed.

(** C9.  (1) Whenever the stored catalog can be loaded, merged, encoded
    and written, reconciliation returns normally, and then the installed
    index is the old one when it held the entry's name, and the old one
    followed by that name when it did not.  (2) After any reconciliation
    that returns normally the installed index holds the entry's name; a
    name already there leaves the index as it was, a new name goes to its
    end, an index without repetition stays so, and the index is written
    back through the configuration as the last thing done. *)
Theorem installed_index_set_semantics (entry : Plugin) (w : World) :
  (forall current merged buf,
      storedCatalog w current ->
      mergeEntry entry current = Ok merged ->
      toml_Encode merged = inr buf ->
      write_faults w !! pluginManifestPath = None ->
      exists w',
        AddEntryToPluginManifest entry w = (Ok tt, w') /\
        (Shortname entry ∈ installed_plugins w ->
         installed_plugins w' = installed_plugins w) /\
        (Shortname entry ∉ installed_plugins w ->
         installed_plugins w' = installed_plugins w ++ [Shortname entry])) /\
  (forall w',
      AddEntryToPluginManifest entry w = (Ok tt, w') ->
      Shortname entry ∈ installed_plugins w' /\
      (Shortname entry ∈ installed_plugins w ->
       installed_plugins w' = installed_plugins w) /\
      (Shortname entry ∉ installed_plugins w ->
       installed_plugins w' = installed_plugins w ++ [Shortname entry]) /\
      (NoDup (installed_plugins w) -> NoDup (installed_plugins w')) /\
      last (trace w') = Some (EvWriteConfigField "installed_plugins")).
Proof.
  split.
  - intros current merged buf Hcur Hmerge Henc Hwr.
    destruct (AddEntry_ok entry w current merged buf Hcur Hmerge Henc Hwr)
      as (w' & Hrun & _ & Hinst).
    exists w'. split; [exact Hrun|]. rewrite Hinst. split.
    + apply addInstalled_present.
    + apply addInstalled_absent.
  - intros w' H. apply AddEntry_ok_installed in H as [Hinst Hlast].
    rewrite Hinst.
    destruct (decide (Shortname entry ∈ installed_plugins w)) as [Hin|Hnin].
    + rewrite (addInstalled_present _ _ Hin). repeat split; done.
    + rewrite (addInstalled_absent _ _ Hnin). repeat split; try done.
      * apply elem_of_app. right. by left.
      * intros Hnd. apply NoDup_app. repeat split; [done| |apply NoDup_singleton].
        intros x Hx ->%list_elem_of_singleton. done.
Qed.

End Reconciliation.

Section CatalogStore.
Context {C : Collaborators}.

Lemma count_events_log (P : event -> bool) (e : event) (w : World) :
  count_events P (log_event e w)
  = count_events P w + (if P e then 1 else 0).
Proof.
  unfold count_events. simpl. rewrite filter_app, length_app. f_equal.
  rewrite filter_cons, filter_nil. destruct (P e); by case_decide.
Qed.

(** C10.  On the catalog that [GetPluginList] returns, the lookup gives
    the first plugin, in catalog order, whose name is the queried one;
    when no plugin bears that name it fails with the error whose message
    is "Could not find a plugin named " followed by the name. *)
Theorem LookUpPlugin_first_match (pluginName : string) (w w1 : World) (pl : PluginList) :
  GetPluginList w = (Ok pl, w1) ->
  (forall l1 p l2,
      Plugins pl = l1 ++ p :: l2 ->
      Shortname p = pluginName ->
      Forall (fun q => Shortname q <> pluginName) l1 ->
      LookUpPlugin pluginName w = (Ok p, w1)) /\
  (Forall (fun q => Shortname q <> pluginName) (Plugins pl) ->
   LookUpPlugin pluginName w
   = (Err (ErrorString ("Could not find a plugin named " +:+ pluginName)), w1)).
Proof.
  intros Hload. unfold LookUpPlugin, bind. rewrite Hload. split.
  - intros l1 p l2 Hsplit Hp Hl1.
    by rewrite (lookUpLoop_first pluginName _ l1 l2 p Hsplit Hp Hl1).
  - intros Hnone. by rewrite (lookUpLoop_none _ _ Hnone).
Qed.

(** C7, as amended.  Loading the catalog: (1) bytes stored, readable and
    decodable give the decoded catalog after a single read and no remote
    call; (2) stored bytes that do not decode give the decoder's error;
    (3) with nothing stored the remote refresh runs, and its failure is
    the failure of the load; (4) after a refresh that returned normally
    the read is made once more and its result, good or bad, decides;
    (5) when credentials, the distribution base and the write are in
    order, any response of the origin, whatever its status, is taken as
    the catalog: its body is stored, the file is read twice in all, and
    the load returns what the body decodes to, a decoding error
    included; (6) a request that fails in transport fails the load with
    that error and stores nothing; (7) so do credentials that cannot be
    had and a distribution base that cannot be resolved. *)
Theorem GetPluginList_load (w : World) :
  (forall body pl,
      read_faults w !! pluginManifestPath = None ->
      files w !! pluginManifestPath = Some body ->
      toml_Decode body zeroPluginList = inr pl ->
      GetPluginList w = (Ok pl, log_event (EvReadFile pluginManifestPath) w) /\
      count_events is_remote (log_event (EvReadFile pluginManifestPath) w)
      = count_events is_remote w) /\
  (forall body e,
      read_faults w !! pluginManifestPath = None ->
      files w !! pluginManifestPath = Some body ->
      toml_Decode body zeroPluginList = inl e ->
      GetPluginList w = (Err e, log_event (EvReadFile pluginManifestPath) w)) /\
  (forall e w1,
      read_faults w !! pluginManifestPath = None ->
      files w !! pluginManifestPath = None ->
      RefreshPluginManifest DefaultAPIBaseURL
        (log_event (EvReadFile pluginManifestPath) w) = (Err e, w1) ->
      GetPluginList w = (Err e, w1)) /\
  (forall w1,
      read_faults w !! pluginManifestPath = None ->
      files w !! pluginManifestPath = None ->
      RefreshPluginManifest DefaultAPIBaseURL
        (log_event (EvReadFile pluginManifestPath) w) = (Ok tt, w1) ->
      GetPluginList w
      = (file <- ReadFile pluginManifestPath ;;
         lift (toml_Decode file zeroPluginList)) w1) /\
  (forall apiKey base resp,
      read_faults w !! pluginManifestPath = None ->
      files w !! pluginManifestPath = None ->
      write_faults w !! pluginManifestPath = None ->
      GetAPIKey = inr apiKey ->
      GetPluginData DefaultAPIBaseURL apiKey = inr base ->
      http_GET (base +:+ "/" +:+ "plugins.toml") = inr resp ->
      exists w',
        GetPluginList w
        = (match toml_Decode (Body resp) zeroPluginList with
           | inl e => Err e
           | inr pl => Ok pl
           end, w') /\
        files w' = <[pluginManifestPath := Body resp]> (files w) /\
        trace w' = trace w ++
                   [EvReadFile pluginManifestPath;
                    EvGetPluginData DefaultAPIBaseURL;
                    EvHTTPGet (base +:+ "/" +:+ "plugins.toml");
                    EvWriteFile pluginManifestPath;
                    EvReadFile pluginManifestPath] /\
        count_events (is_read pluginManifestPath) w'
        = count_events (is_read pluginManifestPath) w + 2) /\
  (forall apiKey base e,
      read_faults w !! pluginManifestPath = None ->
      files w !! pluginManifestPath = None ->
      GetAPIKey = inr apiKey ->
      GetPluginData DefaultAPIBaseURL apiKey = inr base ->
      http_GET (base +:+ "/" +:+ "plugins.toml") = inl e ->
      exists w',
        GetPluginList w = (Err e, w') /\ persistent w' = persistent w) /\
  (forall e,
      read_faults w !! pluginManifestPath = None ->
      files w !! pluginManifestPath = None ->
      GetAPIKey = inl e \/
      (exists apiKey, GetAPIKey = inr apiKey /\
                      GetPluginData DefaultAPIBaseURL apiKey = inl e) ->
      exists w',
        GetPluginList w = (Err e, w') /\ persistent w' = persistent w).
Proof.
  repeat split.
  - unfold GetPluginList. unfold_monad. rewrite ReadFile_run, H, H0. simpl.
    by rewrite H1.
  - rewrite count_events_log. simpl. lia.
  - intros body e Hrf Hf Hdec.
    unfold GetPluginList. unfold_monad. rewrite ReadFile_run, Hrf, Hf. simpl.
    by rewrite Hdec.
  - intros e w1 Hrf Hf Href.
    unfold GetPluginList. unfold_monad. rewrite ReadFile_run, Hrf, Hf. simpl.
    unfold_monad. by rewrite Href.
  - intros w1 Hrf Hf Href.
    unfold GetPluginList. unfold_monad. rewrite ReadFile_run, Hrf, Hf. simpl.
    unfold_monad. rewrite Href.
    destruct (ReadFile pluginManifestPath w1) as [[file|e|msg] w2]; try reflexivity.
  - intros apiKey base resp Hrf Hf Hwf Hkey Hbase Hget.
    unfold GetPluginList, RefreshPluginManifest, FetchRemoteResource.
    unfold_monad. rewrite ReadFile_run, Hrf, Hf. simpl.
    unfold_monad. rewrite Hkey, Hbase. unfold_monad. rewrite Hget.
    unfold_monad. rewrite WriteFile_run. simpl. rewrite Hwf. rewrite ReadFile_run. simpl.
    rewrite Hrf, lookup_insert_eq.
    eexists. split; [destruct (toml_Decode (Body resp) zeroPluginList); reflexivity|].
    simpl. split; [reflexivity|]. split.
    + by rewrite <- !app_assoc.
    + unfold count_events. simpl. rewrite !filter_app, !length_app.
      rewrite !filter_cons, !filter_nil. simpl.
      rewrite String.eqb_refl. repeat case_decide; try done. simpl. lia.
  - intros apiKey base e Hrf Hf Hkey Hbase Hget.
    unfold GetPluginList, RefreshPluginManifest, FetchRemoteResource.
    unfold_monad. rewrite ReadFile_run, Hrf, Hf. simpl.
    unfold_monad. rewrite Hkey, Hbase. unfold_monad. rewrite Hget.
    eexists. split; reflexivity.
  - intros e Hrf Hf [Hkey|(apiKey & Hkey & Hbase)];
      unfold GetPluginList, RefreshPluginManifest, FetchRemoteResource;
      unfold_monad; rewrite ReadFile_run, Hrf, Hf; simpl;
      unfold_monad; rewrite Hkey; [|rewrite Hbase]; unfold_monad;
      eexists; split; reflexivity.
Qed.

End CatalogStore.

Section Extraction.
Context {C : Collaborators}.

Lemma TypeDir_not_TypeReg : Ascii.eqb TypeDir TypeReg = false.
Proof. reflexivity. Qed.

Lemma TypeReg_not_TypeDir : Ascii.eqb TypeReg TypeDir = false.
Proof. reflexivity. Qed.

Lemma TypeReg_is_TypeReg : Ascii.eqb TypeReg TypeReg = true.
Proof. reflexivity. Qed.

(** Without a fragment file the manifest stays what it was; without a
    payload file so does the payload. *)
Lemma scanLoop_no_fragment (t : TarStream) (m m' : PluginList) (d d' : string)
  (w w' : World) :
  fragments t = [] ->
  scanLoop t m d w = (Ok (m', d'), w') ->
  m' = m.
Proof.
  revert m d w. induction t as [|e|h content rest IH]; intros m d w Hfr H;
    simpl in *.
  - by injection H as <- _ _.
  - discriminate.
  - destruct (Ascii.eqb (Typeflag h) TypeDir) eqn:Hdir; [by eapply IH; [|exact H];
      destruct (Ascii.eqb (Typeflag h) TypeReg && String.eqb (Name h) "manifest.toml")|].
    destruct (Ascii.eqb (Typeflag h) TypeReg); [|discriminate]. simpl in Hfr.
    destruct (String.eqb (Name h) "manifest.toml"); [discriminate|].
    destruct (strings_Contains (Name h) "stripe-cli-").
    + unfold_monad_in H. by eapply IH.
    + by eapply IH.
Qed.

Lemma scanLoop_no_payload (t : TarStream) (m m' : PluginList) (d d' : string)
  (w w' : World) :
  payloads t = [] ->
  scanLoop t m d w = (Ok (m', d'), w') ->
  d' = d.
Proof.
  revert m d w. induction t as [|e|h content rest IH]; intros m d w Hp H;
    simpl in *.
  - by injection H as _ <- _.
  - discriminate.
  - destruct (Ascii.eqb (Typeflag h) TypeDir) eqn:Hdir; [by eapply IH; [|exact H];
      destruct (Ascii.eqb (Typeflag h) TypeReg
                && negb (String.eqb (Name h) "manifest.toml")
                && strings_Contains (Name h) "stripe-cli-")|].
    destruct (Ascii.eqb (Typeflag h) TypeReg); [|discriminate]. simpl in Hp.
    destruct (String.eqb (Name h) "manifest.toml"); simpl in Hp.
    + unfold_monad_in H. destruct (toml_Decode content m); [discriminate|].
      by eapply IH.
    + destruct (strings_Contains (Name h) "stripe-cli-"); [discriminate|].
      by eapply IH.
Qed.


(** The first unsupported entry stops the scan with the error that names
    it, unless a fragment before it failed to decode into the manifest
    gathered so far. *)
Lemma scanLoop_unsupported (t : TarStream) (h : Header) (m : PluginList)
  (d : string) (w : World) :
  find unsupported (headers t) = Some h ->
  exists w',
    scanLoop t m d w
    = (Err (match decodeFragments (fragments (before_unsupported t)) m with
            | inl e => e
            | inr _ => errUnrecognizedType (Name h) (Typeflag h)
            end), w').
Proof.
  revert m d w. induction t as [|e|h0 content rest IH]; intros m d w Hfind;
    simpl in *; [discriminate..|].
  unfold unsupported in Hfind at 1. unfold unsupported at 1.
  destruct (Ascii.eqb_spec (Typeflag h0) TypeDir) as [Hdir|Hdir]; simpl in *.
  - rewrite Hdir. simpl. by apply IH.
  - destruct (Ascii.eqb (Typeflag h0) TypeReg) eqn:Hreg; simpl in *.
    + rewrite Hreg. simpl.
      destruct (String.eqb (Name h0) "manifest.toml"); simpl.
      * unfold_monad. destruct (toml_Decode content m) as [e|m1] eqn:Hdec.
        -- by exists w.
        -- by apply IH.
      * destruct (strings_Contains (Name h0) "stripe-cli-").
        -- unfold_monad. by apply IH.
        -- by apply IH.
    + injection Hfind as <-. by exists w.
Qed.

(** C5.  One step of the scan, by kind of entry: a directory is skipped;
    a regular file named exactly manifest.toml is decoded into the
    manifest (a decoding error ends the scan with that error); another
    regular file whose name contains stripe-cli- becomes the payload, its
    bytes kept as they are; any other regular file changes nothing and
    prints nothing; an entry of any other type ends the scan, and the
    extraction, with the error whose message names the entry and its type
    flag, the world untouched. *)
Theorem scanLoop_entry (h : Header) (content : string) (rest : TarStream)
  (m : PluginList) (d : string) (w : World) :
  (Typeflag h = TypeDir ->
   scanLoop (Entry h content rest) m d w = scanLoop rest m d w) /\
  (Typeflag h = TypeReg -> Name h = "manifest.toml" ->
   (forall m', toml_Decode content m = inr m' ->
      scanLoop (Entry h content rest) m d w
      = scanLoop rest m' d (log_event (EvPrintln (ExtractedManifest "manifest.toml")) w)) /\
   (forall e, toml_Decode content m = inl e ->
      scanLoop (Entry h content rest) m d w = (Err e, w))) /\
  (Typeflag h = TypeReg -> Name h <> "manifest.toml" ->
   (exists a b, Name h = a +:+ "stripe-cli-" +:+ b) ->
   scanLoop (Entry h content rest) m d w
   = scanLoop rest m content (log_event (EvPrintln (ExtractedPlugin (Name h))) w)) /\
  (Typeflag h = TypeReg -> Name h <> "manifest.toml" ->
   ~ (exists a b, Name h = a +:+ "stripe-cli-" +:+ b) ->
   scanLoop (Entry h content rest) m d w = scanLoop rest m d w) /\
  (Typeflag h <> TypeDir -> Typeflag h <> TypeReg ->
   scanLoop (Entry h content rest) m d w
   = (Err (ErrorString ("unrecognized file type for file " +:+ Name h +:+ ": "
                          +:+ fmt_c (Typeflag h))), w) /\
   extractFromTarball (Entry h content rest) w
   = (Err (errUnrecognizedType (Name h) (Typeflag h)), w)).
Proof.
  repeat split.
  - intros Hdir. simpl. rewrite Hdir. reflexivity.
  - intros m' Hdec. simpl. rewrite H, H0, TypeReg_not_TypeDir, TypeReg_is_TypeReg. simpl.
    unfold_monad. by rewrite Hdec.
  - intros e Hdec. simpl. rewrite H, H0, TypeReg_not_TypeDir, TypeReg_is_TypeReg. simpl.
    unfold_monad. by rewrite Hdec.
  - intros Hreg Hname (a & b & Hab).
    assert (Hc : strings_Contains (Name h) "stripe-cli-" = true)
      by (rewrite Hab; apply strings_Contains_intro).
    simpl. rewrite Hreg, TypeReg_not_TypeDir, TypeReg_is_TypeReg.
    apply String.eqb_neq in Hname. by rewrite Hname, Hc.
  - intros Hreg Hname Hno. simpl. rewrite Hreg, TypeReg_not_TypeDir, TypeReg_is_TypeReg.
    apply String.eqb_neq in Hname. rewrite Hname.
    destruct (strings_Contains (Name h) "stripe-cli-") eqn:Hc; [|reflexivity].
    exfalso. apply Hno. by apply strings_Contains_elim.
  - simpl. apply Ascii.eqb_neq in H, H0. by rewrite H, H0.
  - unfold extractFromTarball. unfold_monad. simpl.
    apply Ascii.eqb_neq in H, H0. by rewrite H, H0.
Qed.

(** C6, as amended.  When the stream holds an entry that is neither a
    directory nor a regular file, with [h] the first such entry,
    extraction returns an error and leaves the files and the installed
    index as they were.  The error is the one naming [h] and its type
    flag when the manifest.toml entries before [h] all decode, each into
    what the previous one left; otherwise it is the decoding error of
    the first of them that does not.  Entries after [h] play no part. *)
Theorem unsupported_entry_aborts (t : TarStream) (h : Header) (w : World) :
  find unsupported (headers t) = Some h ->
  exists w',
    extractFromTarball t w
    = (Err (match decodeFragments (fragments (before_unsupported t)) zeroPluginList with
            | inl e => e
            | inr _ => errUnrecognizedType (Name h) (Typeflag h)
            end), w') /\
    persistent w' = persistent w.
Proof.
  intros Hfind.
  destruct (scanLoop_unsupported t h zeroPluginList "" w Hfind) as (w' & Hrun).
  exists w'. split.
  - unfold extractFromTarball. unfold_monad. by rewrite Hrun.
  - pose proof (scanLoop_persistent t zeroPluginList "" w) as Hp.
    by rewrite Hrun in Hp.
Qed.

(** C1, as amended.  (1) Extraction returns normally only if the scan
    reached the end of the stream with a manifest of exactly one plugin,
    that plugin having at least one release, and a payload that is not
    empty.  (2) When the scan reaches the end of the stream with a
    manifest that does not hold exactly one plugin, or with an empty
    payload, extraction fails with the error "missing required
    manifest.toml or plugin in the archive" and nothing is stored.
    (3) That is the case of a stream without a manifest.toml file and of
    a stream without a payload file. *)
Theorem extraction_validation (t : TarStream) (w : World) :
  (forall w', extractFromTarball t w = (Ok tt, w') ->
     exists m d w1 p r0 rs,
       scanLoop t zeroPluginList "" w = (Ok (m, d), w1) /\
       Plugins m = [p] /\ Releases p = r0 :: rs /\ 0 < String.length d) /\
  (forall m d w1,
     scanLoop t zeroPluginList "" w = (Ok (m, d), w1) ->
     length (Plugins m) <> 1 \/ String.length d = 0 ->
     extractFromTarball t w = (Err errMalformedArchive, w1) /\
     persistent w1 = persistent w) /\
  (forall m d w1,
     scanLoop t zeroPluginList "" w = (Ok (m, d), w1) ->
     fragments t = [] \/ payloads t = [] ->
     extractFromTarball t w = (Err errMalformedArchive, w1) /\
     persistent w1 = persistent w).
Proof.
  assert (Hreject : forall m d w1,
     scanLoop t zeroPluginList "" w = (Ok (m, d), w1) ->
     length (Plugins m) <> 1 \/ String.length d = 0 ->
     extractFromTarball t w = (Err errMalformedArchive, w1) /\
     persistent w1 = persistent w).
  { intros m d w1 Hscan Hbad. split.
    - unfold extractFromTarball. unfold_monad. rewrite Hscan. simpl.
      unfold installExtracted, accepted.
      destruct Hbad as [Hlen|Hd].
      + apply Nat.eqb_neq in Hlen. by rewrite Hlen.
      + rewrite Hd. by rewrite andb_false_r.
    - pose proof (scanLoop_persistent t zeroPluginList "" w) as Hp.
      by rewrite Hscan in Hp. }
  split; [|split; [exact Hreject|]].
  - intros w' H. unfold extractFromTarball in H. unfold_monad_in H.
    destruct (scanLoop t zeroPluginList "" w) as [[[m d]|e|msg] w1];
      [|discriminate..].
    simpl in H. unfold installExtracted, accepted in H.
    destruct (Nat.eqb (length (Plugins m)) 1) eqn:Hlen; [|discriminate].
    destruct (Nat.ltb 0 (String.length d)) eqn:Hd; [|discriminate].
    simpl in H. apply Nat.eqb_eq in Hlen. apply Nat.ltb_lt in Hd.
    destruct (Plugins m) as [|p [|? ?]] eqn:Hps; try discriminate.
    unfold_monad_in H.
    destruct (AddEntryToPluginManifest p w1) as [[[]|e|msg] w2]; [|discriminate..].
    destruct (Releases p) as [|r0 rs] eqn:Hrel; [discriminate|].
    by exists m, d, w1, p, r0, rs.
  - intros m d w1 Hscan [Hfr|Hpl]; apply (Hreject m d w1 Hscan).
    + left. apply (scanLoop_no_fragment _ _ _ _ _ _ _ Hfr) in Hscan as ->. simpl. lia.
    + right. by apply (scanLoop_no_payload _ _ _ _ _ _ _ Hpl) in Hscan as ->.
Qed.


End Extraction.

(** * Runs on the concrete installation *)

(** C8.  An archive whose manifest.toml holds one plugin without any
    release, next to a payload that is not empty, passes the test of line
    334; the run then indexes [Releases[0]] out of range.  On an empty
    store the panic comes at line 342, after reconciliation has stored
    the plugin and put its name in the installed index; on a store that
    already knows the plugin it comes at line 153. *)
Theorem accepted_archive_without_release_panics :
  let t := Fixture.archive_of Fixture.hello_none "B" in
  accepted (mkPluginList [Fixture.hello_none]) "B" = true /\
  (@scanLoop Fixture.collaborators t zeroPluginList "" Fixture.fresh).1
  = Ok (mkPluginList [Fixture.hello_none], "B") /\
  (@extractFromTarball Fixture.collaborators t Fixture.fresh).1
  = Panic "index out of range [0] with length 0" /\
  installed_plugins (@extractFromTarball Fixture.collaborators t Fixture.fresh).2
  = ["hello"] /\
  (@extractFromTarball Fixture.collaborators t Fixture.stocked).1
  = Panic "index out of range [0] with length 0" /\
  persistent (@extractFromTarball Fixture.collaborators t Fixture.stocked).2
  = persistent Fixture.stocked.
Proof. vm_compute. repeat split. Qed.

(** Against C1 as stated: a manifest.toml with one plugin and two releases
    is accepted and installed. *)
Lemma two_releases_accepted :
  let t := Fixture.archive_of Fixture.hello_two "B" in
  (@scanLoop Fixture.collaborators t zeroPluginList "" Fixture.fresh).1
  = Ok (mkPluginList [Fixture.hello_two], "B") /\
  length (Releases Fixture.hello_two) = 2 /\
  (@extractFromTarball Fixture.collaborators t Fixture.fresh).1 = Ok tt.
Proof. vm_compute. repeat split. Qed.


(** Against C6 as stated: a manifest.toml that does not decode, followed
    by a symbolic link; the error returned is the decoder's, not the one
    about the entry type. *)
Lemma garbage_fragment_before_symlink :
  let t := Fixture.symlink_after_garbage in
  find unsupported (headers t) = Some (mkHeader "link" TypeSymlink) /\
  (@extractFromTarball Fixture.collaborators t Fixture.fresh).1
  = Err (ErrExternal "toml" "cannot parse") /\
  forall name flag,
    ErrExternal "toml" "cannot parse" <> errUnrecognizedType name flag.
Proof. vm_compute. repeat split. discriminate. Qed.

(** Against C7 as stated: the origin has no catalog and answers 404 with
    a page of its own.  No fetch error comes back: the page is stored as
    the catalog, and the load fails on decoding it. *)
Lemma error_page_is_stored_and_parsed :
  let run := @GetPluginList Fixture.without_catalog Fixture.fresh in
  @http_GET Fixture.without_catalog "https://plugins.example/plugins.toml"
  = inr (mkResponse 404 "404 page not found") /\
  run.1 = Err (ErrExternal "toml" "cannot parse") /\
  files run.2 !! "/cfg/plugins.toml" = Some "404 page not found".
Proof. vm_compute. repeat split. Qed.

(** ** Instances of the theorems *)

(** C3 on the stocked catalog: a second release of [hello]. *)
Lemma reconcile_existing_appends_witness :
  @storedCatalog Fixture.collaborators Fixture.stocked
    (mkPluginList [Fixture.tools; Fixture.hello]) /\
  exists merged,
    mergeEntry Fixture.hello_next (mkPluginList [Fixture.tools; Fixture.hello])
    = Ok merged /\
    Plugins merged !! 1 = Some (mkPlugin "hello" [Fixture.r100; Fixture.r110]) /\
    Plugins merged !! 0 = Some Fixture.tools.
Proof.
  assert (Hstored : @storedCatalog Fixture.collaborators Fixture.stocked
                      (mkPluginList [Fixture.tools; Fixture.hello])).
  { vm_compute. split; reflexivity. }
  split; [exact Hstored|].
  destruct (@reconcile_existing_appends Fixture.collaborators
              Fixture.hello_next Fixture.hello Fixture.r110 1 Fixture.stocked
              (mkPluginList [Fixture.tools; Fixture.hello]))
    as (merged & Hmerge & _ & Hat & Hother & _).
  - exact Hstored.
  - reflexivity.
  - reflexivity.
  - intros j q Hj Hq. destruct j as [|j]; [|lia].
    injection Hq as <-. discriminate.
  - reflexivity.
  - exists merged. split; [exact Hmerge|]. split; [exact Hat|].
    rewrite (Hother 0); [reflexivity|lia].
Defined.

(** C4 on the empty store: [hello] becomes the whole catalog. *)
Lemma reconcile_new_inserts_witness :
  @storedCatalog Fixture.collaborators Fixture.fresh zeroPluginList /\
  exists w',
    @AddEntryToPluginManifest Fixture.collaborators Fixture.hello Fixture.fresh
    = (Ok tt, w') /\
    files w' = <["/cfg/plugins.toml" := "hello=1.0.0;"]> (files Fixture.fresh).
Proof.
  assert (Hstored : @storedCatalog Fixture.collaborators Fixture.fresh zeroPluginList).
  { vm_compute. reflexivity. }
  split; [exact Hstored|].
  destruct (@reconcile_new_inserts Fixture.collaborators Fixture.hello
              Fixture.fresh zeroPluginList Hstored)
    as (merged & Hmerge & Hps & _ & _ & _ & Hrun).
  - apply Forall_nil_2.
  - apply (Hrun "hello=1.0.0;").
    + destruct merged as [ps]. simpl in Hps. subst ps. reflexivity.
    + reflexivity.
Defined.

(** C9: [hello] is new to the empty store and is added; [tools] is
    installed already on the stocked one and the index stays as it is. *)
Lemma installed_index_set_semantics_witness :
  (exists w',
     @AddEntryToPluginManifest Fixture.collaborators Fixture.hello Fixture.fresh
     = (Ok tt, w') /\
     installed_plugins w' = ["hello"]) /\
  (exists w',
     @AddEntryToPluginManifest Fixture.collaborators Fixture.tools Fixture.stocked
     = (Ok tt, w') /\
     installed_plugins w' = ["tools"]).
Proof.
  split.
  - destruct (@installed_index_set_semantics Fixture.collaborators Fixture.hello
                Fixture.fresh) as [Hruns _].
    destruct (Hruns zeroPluginList (mkPluginList [Fixture.hello]) "hello=1.0.0;")
      as (w' & Hrun & _ & Hnew); [vm_compute; reflexivity|reflexivity..|].
    exists w'. split; [exact Hrun|]. apply Hnew.
    intros Hin. by apply elem_of_nil in Hin.
  - destruct (@installed_index_set_semantics Fixture.collaborators Fixture.tools
                Fixture.stocked) as [Hruns _].
    destruct (Hruns (mkPluginList [Fixture.tools; Fixture.hello])
                (mkPluginList [mkPlugin "tools" [Fixture.r100; Fixture.r100];
                               Fixture.hello])
                "tools=1.0.0,1.0.0;hello=1.0.0;")
      as (w' & Hrun & Hsame & _);
      [vm_compute; split; reflexivity|reflexivity..|].
    exists w'. split; [exact Hrun|]. apply Hsame. by left.
Defined.

(** C10 on the stocked catalog: [hello] is found behind [tools]. *)
Lemma LookUpPlugin_first_match_witness :
  (@LookUpPlugin Fixture.collaborators "hello" Fixture.stocked).1 = Ok Fixture.hello /\
  (@LookUpPlugin Fixture.collaborators "absent" Fixture.stocked).1
  = Err (ErrorString "Could not find a plugin named absent").
Proof.
  pose (w1 := (@GetPluginList Fixture.collaborators Fixture.stocked).2).
  assert (Hload : @GetPluginList Fixture.collaborators Fixture.stocked
                  = (Ok (mkPluginList [Fixture.tools; Fixture.hello]), w1)).
  { vm_compute. reflexivity. }
  split.
  - destruct (@LookUpPlugin_first_match Fixture.collaborators "hello"
                Fixture.stocked w1 _ Hload) as [Hfound _].
    rewrite (Hfound [Fixture.tools] Fixture.hello []); [reflexivity..|].
    apply Forall_singleton. discriminate.
  - destruct (@LookUpPlugin_first_match Fixture.collaborators "absent"
                Fixture.stocked w1 _ Hload) as [_ Hnone].
    rewrite Hnone; [reflexivity|].
    repeat apply Forall_cons_2; [discriminate..|apply Forall_nil_2].
Defined.

(** C7 on the empty store: the catalog is fetched, stored and decoded. *)
Lemma GetPluginList_load_witness :
  exists w',
    @GetPluginList Fixture.collaborators Fixture.fresh
    = (Ok (mkPluginList [Fixture.tools]), w') /\
    files w' = <["/cfg/plugins.toml" := "tools=1.0.0;"]> (files Fixture.fresh).
Proof.
  destruct (@GetPluginList_load Fixture.collaborators Fixture.fresh)
    as (_ & _ & _ & _ & Hboot & _).
  destruct (Hboot "sk_test" "https://plugins.example" (mkResponse 200 "tools=1.0.0;"))
    as (w' & Hrun & Hfiles & _); [reflexivity..|].
  exists w'. split; [exact Hrun|exact Hfiles].
Defined.

(** C5 on a symbolic link. *)
Lemma scanLoop_entry_witness :
  @extractFromTarball Fixture.collaborators
    (Entry (mkHeader "link" TypeSymlink) "" EOF) Fixture.fresh
  = (Err (ErrorString "unrecognized file type for file link: 2"), Fixture.fresh).
Proof.
  destruct (@scanLoop_entry Fixture.collaborators (mkHeader "link" TypeSymlink) ""
              EOF zeroPluginList "" Fixture.fresh) as (_ & _ & _ & _ & Hother).
  destruct Hother as [_ Hrun]; [discriminate..|].
  exact Hrun.
Defined.

(** C6 on an archive that is complete but for a trailing symbolic link. *)
Lemma unsupported_entry_aborts_witness :
  find unsupported (headers Fixture.symlink_last) = Some (mkHeader "link" TypeSymlink) /\
  exists w',
    @extractFromTarball Fixture.collaborators Fixture.symlink_last Fixture.fresh
    = (Err (ErrorString "unrecognized file type for file link: 2"), w') /\
    persistent w' = persistent Fixture.fresh.
Proof.
  split; [reflexivity|].
  destruct (@unsupported_entry_aborts Fixture.collaborators Fixture.symlink_last
              (mkHeader "link" TypeSymlink) Fixture.fresh) as (w' & Hrun & Hp).
  - reflexivity.
  - exists w'. split; [exact Hrun|exact Hp].
Defined.

(** C1 on the archive without a payload. *)
Lemma extraction_validation_witness :
  (@extractFromTarball Fixture.collaborators
     (Fixture.file "manifest.toml" "hello=1.0.0;" EOF) Fixture.fresh).1
  = Err errMalformedArchive.
Proof.
  pose (t := Fixture.file "manifest.toml" "hello=1.0.0;" EOF).
  pose (w1 := (@scanLoop Fixture.collaborators t zeroPluginList "" Fixture.fresh).2).
  destruct (@extraction_validation Fixture.collaborators t Fixture.fresh)
    as (_ & _ & Hmissing).
  destruct (Hmissing (mkPluginList [Fixture.hello]) "" w1) as [Hrun _].
  - vm_compute. reflexivity.
  - right. reflexivity.
  - exact (f_equal fst Hrun).
Defined.


(** * Further properties of the code *)

(** ** The merge of lines 147-161 *)

Lemma appendLoop_cases (entry : Plugin) (ps : list Plugin) :
  (Forall (fun q => Shortname q <> Shortname entry) ps /\
   appendLoop entry ps = Ok (false, ps)) \/
  (exists l1 p l2,
     ps = l1 ++ p :: l2 /\
     Forall (fun q => Shortname q <> Shortname entry) l1 /\
     Shortname p = Shortname entry /\
     appendLoop entry ps
     = match Releases entry with
       | r0 :: _ =>
           Ok (true, l1 ++ mkPlugin (Shortname p) (Releases p ++ [r0]) :: l2)
       | [] => Panic "index out of range [0] with length 0"
       end).
Proof.
  induction ps as [|q ps IH]; [left; split; [constructor|reflexivity]|].
  simpl. destruct (String.eqb_spec (Shortname q) (Shortname entry)) as [E|NE].
  - right. exists [], q, ps.
    split; [reflexivity|]. split; [apply Forall_nil_2|]. split; [exact E|].
    by destruct (Releases entry).
  - destruct IH as [[Hall Hrun]|(l1 & p & l2 & -> & Hl1 & Hp & Hrun)].
    + left. split; [by apply Forall_cons_2|]. by rewrite Hrun.
    + right. exists (q :: l1), p, l2.
      split; [reflexivity|]. split; [by apply Forall_cons_2|]. split; [exact Hp|].
      rewrite Hrun. by destruct (Releases entry).
Qed.

(** X1.  The merge never returns an error, and it panics exactly when the
    entry has no release and the catalog already holds a plugin of its
    name. *)
Theorem mergeEntry_panics_iff (entry : Plugin) (current : PluginList) :
  (forall e, mergeEntry entry current <> Err e) /\
  ((exists msg, mergeEntry entry current = Panic msg) <->
   (Releases entry = [] /\
    Exists (fun q => Shortname q = Shortname entry) (Plugins current))).
Proof.
  unfold mergeEntry.
  destruct (appendLoop_cases entry (Plugins current))
    as [[Hall Hrun]|(l1 & p & l2 & Hps & Hl1 & Hp & Hrun)]; rewrite Hrun.
  - split; [discriminate|]. split; [intros [? ?]; discriminate|].
    intros [_ Hex]. apply Exists_exists in Hex as (q & Hq & Hname).
    rewrite Forall_forall in Hall. by destruct (Hall q Hq).
  - destruct (Releases entry) as [|r0 rs].
    + split; [discriminate|]. split; [intros _|by eexists].
      split; [reflexivity|]. rewrite Hps. apply Exists_app. right. by left.
    + split; [discriminate|]. split; [intros [? ?]; discriminate|].
      intros [? _]. discriminate.
Qed.

(** X2.  A merge that returns keeps every name of the catalog in place
    and adds the entry's name at the end when it was not there: the names
    afterwards are the names before, followed by the entry's name in the
    second case only; so names that were pairwise different stay so. *)
Theorem mergeEntry_names (entry : Plugin) (current merged : PluginList) :
  mergeEntry entry current = Ok merged ->
  (names merged = names current \/
   ((Shortname entry ∉ names current) /\
    names merged = names current ++ [Shortname entry])) /\
  Shortname entry ∈ names merged /\
  (NoDup (names current) -> NoDup (names merged)).
Proof.
  unfold mergeEntry, names.
  destruct (appendLoop_cases entry (Plugins current))
    as [[Hall Hrun]|(l1 & p & l2 & Hps & Hl1 & Hp & Hrun)]; rewrite Hrun.
  - intros [= <-]. simpl.
    assert (Hfresh : Shortname entry ∉ map Shortname (Plugins current)).
    { intros (q & Hq & Hin)%list_elem_of_fmap. rewrite Forall_forall in Hall.
      by destruct (Hall q Hin). }
    rewrite map_app. simpl. split; [by right|]. split.
    + apply elem_of_app. right. by left.
    + intros Hnd. apply NoDup_app. repeat split; [done| |apply NoDup_singleton].
      by intros x Hx ->%list_elem_of_singleton.
  - destruct (Releases entry) as [|r0 rs]; [discriminate|].
    intros [= <-]. simpl. rewrite Hps, !map_app. simpl.
    split; [by left|]. split; [|done].
    apply elem_of_app. right. rewrite Hp. by left.
Qed.

(** X3.  Reconciling the same entry a second time never adds a plugin:
    the first merge leaves the name in the catalog, so the second takes
    the append branch, and the first plugin of that name carries the
    entry's first release once more at the end (no deduplication). *)
Theorem mergeEntry_twice (entry : Plugin) (current : PluginList)
  (r0 : Release) (rs : list Release) :
  Releases entry = r0 :: rs ->
  exists m1 m2 p1 p2,
    mergeEntry entry current = Ok m1 /\
    mergeEntry entry m1 = Ok m2 /\
    length (Plugins m2) = length (Plugins m1) /\
    lookUpLoop (Shortname entry) (Plugins m1) = Some p1 /\
    lookUpLoop (Shortname entry) (Plugins m2) = Some p2 /\
    Releases p2 = Releases p1 ++ [r0].
Proof.
  intros Hrel.
  assert (Hfound : forall l1 p l2,
    Forall (fun q => Shortname q <> Shortname entry) l1 ->
    Shortname p = Shortname entry ->
    exists m2 p2,
      mergeEntry entry (mkPluginList (l1 ++ p :: l2)) = Ok m2 /\
      length (Plugins m2) = length (l1 ++ p :: l2) /\
      lookUpLoop (Shortname entry) (l1 ++ p :: l2) = Some p /\
      lookUpLoop (Shortname entry) (Plugins m2) = Some p2 /\
      Releases p2 = Releases p ++ [r0]).
  { intros l1 p l2 Hl1 Hp.
    assert (Hi : (l1 ++ p :: l2) !! length l1 = Some p)
      by (by rewrite list_lookup_middle).
    assert (Hfirst : forall j q, j < length l1 -> (l1 ++ p :: l2) !! j = Some q ->
                                 Shortname q <> Shortname entry).
    { intros j q Hj Hq. rewrite lookup_app_l in Hq by done.
      rewrite Forall_forall in Hl1. apply Hl1. by eapply list_elem_of_lookup_2. }
    exists (mkPluginList (<[length l1 := mkPlugin (Shortname p) (Releases p ++ [r0])]>
                            (l1 ++ p :: l2))).
    exists (mkPlugin (Shortname p) (Releases p ++ [r0])).
    unfold mergeEntry. simpl.
    rewrite (appendLoop_found entry p _ (length l1) r0 rs Hi Hp Hfirst Hrel).
    split; [reflexivity|]. simpl. split; [apply length_insert|].
    split; [by apply (lookUpLoop_first _ _ l1 l2)|]. split; [|reflexivity].
    rewrite insert_app_r_alt, Nat.sub_diag by lia. simpl.
    by apply (lookUpLoop_first _ _ l1 l2). }
  unfold mergeEntry at 1.
  destruct (appendLoop_cases entry (Plugins current))
    as [[Hall Hrun]|(l1 & p & l2 & Hps & Hl1 & Hp & Hrun)]; rewrite Hrun.
  - destruct (Hfound (Plugins current) entry [] Hall eq_refl)
      as (m2 & p2 & Hm2 & Hlen & Hl1 & Hl2 & Hr).
    exists (mkPluginList (Plugins current ++ [entry])), m2, entry, p2.
    by repeat split.
  - rewrite Hrel.
    destruct (Hfound l1 (mkPlugin (Shortname p) (Releases p ++ [r0])) l2 Hl1 Hp)
      as (m2 & p2 & Hm2 & Hlen & Hlk1 & Hlk2 & Hr).
    exists (mkPluginList (l1 ++ mkPlugin (Shortname p) (Releases p ++ [r0]) :: l2)),
      m2, (mkPlugin (Shortname p) (Releases p ++ [r0])), p2.
    by repeat split.
Qed.

(** ** Reconciliation and the store *)

Ltac run_effects_in H :=
  repeat (unfold_monad_in H;
          try rewrite ReadFile_run in H;
          try rewrite WriteFile_run in H;
          destruct_scrutinee H);
  unfold_monad_in H.

Section StoreProperties.
Context {C : Collaborators}.

Lemma AddEntry_frame_run (entry : Plugin) (w w' : World) (r : outcome unit) :
  AddEntryToPluginManifest entry w = (r, w') ->
  (forall path, path <> pluginManifestPath -> files w' !! path = files w !! path) /\
  read_faults w' = read_faults w /\
  write_faults w' = write_faults w.
Proof.
  unfold AddEntryToPluginManifest, Stat_ok, toml_DecodeFile, InitConfig,
    GetInstalledPlugins, WriteConfigField_installed_plugins.
  intros H. run_effects_in H; injection H as <- <-; simpl;
    (split; [|done]); intros path Hpath; try done;
    by rewrite lookup_insert_ne.
Qed.

Lemma GetPluginList_present (w : World) (body : string) :
  read_faults w !! pluginManifestPath = None ->
  files w !! pluginManifestPath = Some body ->
  GetPluginList w
  = (match toml_Decode body zeroPluginList with
     | inl e => Err e
     | inr pl => Ok pl
     end, log_event (EvReadFile pluginManifestPath) w).
Proof.
  intros Hrf Hf. unfold GetPluginList. unfold_monad.
  rewrite ReadFile_run, Hrf, Hf. simpl.
  by destruct (toml_Decode body zeroPluginList).
Qed.

Lemma mergeEntry_lookup (entry : Plugin) (current merged : PluginList) (r : Release) :
  mergeEntry entry current = Ok merged ->
  Releases entry = [r] ->
  exists p,
    lookUpLoop (Shortname entry) (Plugins merged) = Some p /\
    Shortname p = Shortname entry /\
    last (Releases p) = Some r.
Proof.
  unfold mergeEntry. intros H Hrel.
  destruct (appendLoop_cases entry (Plugins current))
    as [[Hall Hrun]|(l1 & p & l2 & Hps & Hl1 & Hp & Hrun)]; rewrite Hrun in H.
  - injection H as <-. exists entry. simpl.
    split; [by apply (lookUpLoop_first _ _ (Plugins current) [])|].
    split; [reflexivity|]. by rewrite Hrel.
  - rewrite Hrel in H. injection H as <-. simpl.
    exists (mkPlugin (Shortname p) (Releases p ++ [r])).
    split; [by apply (lookUpLoop_first _ _ l1 l2)|].
    split; [exact Hp|]. simpl. apply last_snoc.
Qed.

Lemma AddEntry_trace (entry : Plugin) (w w' : World) (r : outcome unit) :
  AddEntryToPluginManifest entry w = (r, w') ->
  exists events,
    trace w' = trace w ++ events /\
    Forall (fun ev => ev = EvReadFile pluginManifestPath \/
                      ev = EvWriteFile pluginManifestPath \/
                      ev = EvWriteConfigField "installed_plugins") events.
Proof.
  unfold AddEntryToPluginManifest, Stat_ok, toml_DecodeFile, InitConfig,
    GetInstalledPlugins, WriteConfigField_installed_plugins.
  intros H. run_effects_in H; injection H as <- <-; simpl;
    rewrite <- ?app_assoc; simpl;
    first [eexists; split; [reflexivity|]; repeat constructor; tauto
          |exists []; split; [by rewrite app_nil_r|constructor]].
Qed.

(** X4.  Whatever its outcome, reconciliation reads and writes one file
    only, the catalog plugins.toml, and hands one field,
    installed_plugins, to the configuration collaborator: nothing else
    is in its trace, every other path of the file system keeps what it
    held, and the faults of the file system are left alone. *)
Theorem AddEntry_frame (entry : Plugin) (w : World) :
  (exists events,
     trace (AddEntryToPluginManifest entry w).2 = trace w ++ events /\
     Forall (fun ev => ev = EvReadFile pluginManifestPath \/
                       ev = EvWriteFile pluginManifestPath \/
                       ev = EvWriteConfigField "installed_plugins") events) /\
  (forall path, path <> pluginManifestPath ->
     files (AddEntryToPluginManifest entry w).2 !! path = files w !! path) /\
  read_faults (AddEntryToPluginManifest entry w).2 = read_faults w /\
  write_faults (AddEntryToPluginManifest entry w).2 = write_faults w.
Proof.
  destruct (AddEntryToPluginManifest entry w) as [r w'] eqn:Hrun.
  split; [exact (AddEntry_trace entry w w' r Hrun)|].
  exact (AddEntry_frame_run entry w w' r Hrun).
Qed.


(** X6.  Insert then look up.  When the codec reads back what it wrote and
    the catalog file can be written and read, reconciling an entry with a
    single release [r] and then looking its name up returns a plugin of
    that name whose last release is [r], and the lookup stores nothing. *)
Theorem reconcile_then_lookup (entry : Plugin) (w : World)
  (current merged : PluginList) (buf : string) (r : Release) :
  storedCatalog w current ->
  mergeEntry entry current = Ok merged ->
  Releases entry = [r] ->
  toml_Encode merged = inr buf ->
  toml_Decode buf zeroPluginList = inr merged ->
  write_faults w !! pluginManifestPath = None ->
  read_faults w !! pluginManifestPath = None ->
  exists w' w'' p,
    AddEntryToPluginManifest entry w = (Ok tt, w') /\
    LookUpPlugin (Shortname entry) w' = (Ok p, w'') /\
    Shortname p = Shortname entry /\
    last (Releases p) = Some r /\
    persistent w'' = persistent w'.
Proof.
  intros Hcur Hmerge Hrel Henc Hdec Hwf Hrf.
  destruct (AddEntry_ok entry w current merged buf Hcur Hmerge Henc Hwf)
    as (w' & Hrun & Hfiles & _).
  destruct (AddEntry_frame_run entry w w' _ Hrun) as (_ & Hrf' & _).
  destruct (mergeEntry_lookup entry current merged r Hmerge Hrel)
    as (p & Hlook & Hp & Hlast).
  exists w', (log_event (EvReadFile pluginManifestPath) w'), p.
  split; [exact Hrun|]. split; [|by repeat split].
  unfold LookUpPlugin. unfold_monad.
  rewrite (GetPluginList_present w' buf), Hdec, Hlook; [reflexivity| |].
  - by rewrite Hrf'.
  - by rewrite Hfiles, lookup_insert_eq.
Qed.

End StoreProperties.

(** ** Loading and looking up *)

Lemma lookUpLoop_Some (pluginName : string) (ps : list Plugin) (p : Plugin) :
  lookUpLoop pluginName ps = Some p -> Shortname p = pluginName /\ p ∈ ps.
Proof.
  induction ps as [|q ps IH]; simpl; [discriminate|].
  destruct (String.eqb_spec pluginName (Shortname q)) as [E|_].
  - intros [= <-]. split; [done|by left].
  - intros H. destruct (IH H) as [Hn Hin]. split; [done|by right].
Qed.

Lemma lookUpLoop_None (pluginName : string) (ps : list Plugin) :
  lookUpLoop pluginName ps = None -> pluginName ∉ map Shortname ps.
Proof.
  induction ps as [|q ps IH]; simpl; [intros _ Hin; by apply elem_of_nil in Hin|].
  destruct (String.eqb_spec pluginName (Shortname q)) as [E|NE]; [discriminate|].
  intros H [Hq|Hin]%elem_of_cons; [done|by apply IH].
Qed.

Section LoadProperties.
Context {C : Collaborators}.

(** X7.  A plugin returned by the lookup bears the queried name and stands
    in the catalog that was loaded; and the lookup fails only because the
    load failed, with the load's error, or because no plugin of the
    loaded catalog bears the name. *)
Theorem LookUpPlugin_sound (pluginName : string) (w w' : World) :
  (forall p, LookUpPlugin pluginName w = (Ok p, w') ->
     Shortname p = pluginName /\
     exists pl, GetPluginList w = (Ok pl, w') /\ p ∈ Plugins pl) /\
  (forall e, LookUpPlugin pluginName w = (Err e, w') ->
     GetPluginList w = (Err e, w') \/
     (e = errPluginNotFound pluginName /\
      exists pl, GetPluginList w = (Ok pl, w') /\ pluginName ∉ names pl)).
Proof.
  unfold LookUpPlugin. unfold_monad.
  destruct (GetPluginList w) as [[pl|e0|msg] w1]; split; try discriminate.
  - intros p H.
    destruct (lookUpLoop pluginName (Plugins pl)) as [q|] eqn:Hl; [|discriminate].
    injection H as <- <-. apply lookUpLoop_Some in Hl as [Hn Hin].
    split; [exact Hn|]. by exists pl.
  - intros e H.
    destruct (lookUpLoop pluginName (Plugins pl)) as [q|] eqn:Hl; [discriminate|].
    injection H as <- <-. right. split; [reflexivity|].
    exists pl. split; [reflexivity|]. by apply lookUpLoop_None.
  - intros e H. injection H as <- <-. by left.
Qed.

(** X8.  A catalog file that is there but cannot be read, for a reason
    other than absence, fails the load with the read error: the origin is
    not contacted and nothing is written. *)
Theorem GetPluginList_read_error (w : World) (e : error) :
  read_faults w !! pluginManifestPath = Some e ->
  os_IsNotExist e = false ->
  GetPluginList w = (Err e, log_event (EvReadFile pluginManifestPath) w).
Proof.
  intros Hrf Hne. unfold GetPluginList. unfold_monad.
  rewrite ReadFile_run, Hrf. simpl. by rewrite Hne.
Qed.

Lemma GetPluginList_ok_stored (w w1 : World) (pl : PluginList) :
  GetPluginList w = (Ok pl, w1) ->
  read_faults w1 !! pluginManifestPath = None /\
  exists body,
    files w1 !! pluginManifestPath = Some body /\
    toml_Decode body zeroPluginList = inr pl.
Proof.
  unfold GetPluginList, RefreshPluginManifest, FetchRemoteResource.
  intros H. run_effects_in H; try discriminate; injection H as <- <-;
    simpl in *; (split; [done|]); eauto.
Qed.

(** X9.  Once a load has returned a catalog, loading again returns the
    same catalog after a single read: no call to the origin, no write. *)
Theorem GetPluginList_reload (w w1 : World) (pl : PluginList) :
  GetPluginList w = (Ok pl, w1) ->
  GetPluginList w1 = (Ok pl, log_event (EvReadFile pluginManifestPath) w1).
Proof.
  intros H. apply GetPluginList_ok_stored in H as (Hrf & body & Hf & Hdec).
  by rewrite (GetPluginList_present w1 body Hrf Hf), Hdec.
Qed.

(** X10.  Whatever its outcome, the load leaves the installed index, the
    faults and every file other than the catalog as they were; and with a
    catalog file in place that can be read it writes nothing at all. *)
Theorem GetPluginList_frame (w : World) :
  installed_plugins (GetPluginList w).2 = installed_plugins w /\
  read_faults (GetPluginList w).2 = read_faults w /\
  write_faults (GetPluginList w).2 = write_faults w /\
  (forall path, path <> pluginManifestPath ->
     files (GetPluginList w).2 !! path = files w !! path) /\
  (read_faults w !! pluginManifestPath = None ->
   is_Some (files w !! pluginManifestPath) ->
   files (GetPluginList w).2 = files w).
Proof.
  destruct (GetPluginList w) as [r w'] eqn:H. simpl.
  assert (Hpresent : read_faults w !! pluginManifestPath = None ->
                     is_Some (files w !! pluginManifestPath) -> files w' = files w).
  { intros Hrf [body Hf]. rewrite (GetPluginList_present w body Hrf Hf) in H.
    by injection H as _ <-. }
  unfold GetPluginList, RefreshPluginManifest, FetchRemoteResource in H.
  run_effects_in H; injection H as <- <-; simpl in *;
    repeat split; try done;
    intros path Hpath; by rewrite ?lookup_insert_ne.
Qed.

(** X11.  What the refresh leaves behind.  When it returns normally the
    catalog file holds the body of the response fetched from the
    distribution base of the account, joined with plugins.toml, whatever
    was stored before.  When it fails no file has changed, except when
    the write failed after the file had been opened: the catalog file
    then holds the first bytes of that body.  It never panics; without
    credentials it stops before any call to the origin; the installed
    index is never touched. *)
Theorem RefreshPluginManifest_effect (baseURL : string) (w : World) :
  match (RefreshPluginManifest baseURL w).1 with
  | Ok _ =>
      exists apiKey base resp,
        GetAPIKey = inr apiKey /\
        GetPluginData baseURL apiKey = inr base /\
        http_GET (base +:+ "/" +:+ "plugins.toml") = inr resp /\
        files (RefreshPluginManifest baseURL w).2
        = <[pluginManifestPath := Body resp]> (files w)
  | Err e =>
      files (RefreshPluginManifest baseURL w).2 = files w \/
      exists apiKey base resp written,
        GetAPIKey = inr apiKey /\
        GetPluginData baseURL apiKey = inr base /\
        http_GET (base +:+ "/" +:+ "plugins.toml") = inr resp /\
        write_faults w !! pluginManifestPath = Some (FailsAfterOpen e written) /\
        files (RefreshPluginManifest baseURL w).2
        = <[pluginManifestPath := String.substring 0 written (Body resp)]> (files w)
  | Panic _ => False
  end /\
  installed_plugins (RefreshPluginManifest baseURL w).2 = installed_plugins w /\
  (forall e, GetAPIKey = inl e -> RefreshPluginManifest baseURL w = (Err e, w)).
Proof.
  split; [|split].
  - destruct (RefreshPluginManifest baseURL w) as [r w'] eqn:H. simpl.
    unfold RefreshPluginManifest, FetchRemoteResource in H.
    run_effects_in H; injection H as <- <-; simpl in *; try (by left).
    + right. eauto 10.
    + eauto 10.
  - destruct (RefreshPluginManifest baseURL w) as [r w'] eqn:H. simpl.
    unfold RefreshPluginManifest, FetchRemoteResource in H.
    run_effects_in H; injection H as <- <-; done.
  - intros e He. unfold RefreshPluginManifest. unfold_monad. by rewrite He.
Qed.

End LoadProperties.

(** ** The scan of the archive *)

Section ScanProperties.
Context {C : Collaborators}.

(** X12.  A scan that reaches the end of the stream returns the fragments
    decoded in stream order, each into what the previous one left, and
    the bytes of the last payload file: a later payload replaces an
    earlier one, and without any payload file the payload is empty. *)
Theorem scanLoop_result (t : TarStream) (w w' : World) (m : PluginList) (d : string) :
  scanLoop t zeroPluginList "" w = (Ok (m, d), w') ->
  decodeFragments (fragments t) zeroPluginList = inr m /\
  d = default "" (last (payloads t)).
Proof.
  assert (Hgen : forall t m0 d0 w0,
    scanLoop t m0 d0 w0 = (Ok (m, d), w') ->
    decodeFragments (fragments t) m0 = inr m /\
    d = default d0 (last (payloads t))).
  { clear t w. induction t as [|e|h content rest IH]; intros m0 d0 w0 H; simpl in *.
    - by injection H as <- <- _.
    - discriminate.
    - destruct (Ascii.eqb_spec (Typeflag h) TypeDir) as [Hdir|_];
        [rewrite Hdir; simpl; by apply IH in H|].
      destruct (Ascii.eqb (Typeflag h) TypeReg); [|discriminate]. simpl.
      destruct (String.eqb (Name h) "manifest.toml"); simpl.
      + unfold_monad_in H.
        destruct (toml_Decode content m0) as [e|m1]; [discriminate|].
        by apply IH in H.
      + destruct (strings_Contains (Name h) "stripe-cli-").
        * unfold_monad_in H. apply IH in H as [Hm Hd]. split; [exact Hm|].
          rewrite Hd, last_cons. by destruct (last (payloads rest)).
        * by apply IH in H. }
  apply Hgen.
Qed.

Lemma scanLoop_strip (t : TarStream) (m : PluginList) (d : string) (w : World) :
  scanLoop (strip t) m d w = scanLoop t m d w.
Proof.
  revert m d w. induction t as [|e|h content rest IH]; intros m d w; simpl;
    [reflexivity..|].
  destruct (Ascii.eqb (Typeflag h) TypeDir) eqn:Hdir; [apply IH|].
  destruct (Ascii.eqb (Typeflag h) TypeReg) eqn:Hreg; simpl.
  - destruct (String.eqb (Name h) "manifest.toml") eqn:Hname; simpl.
    + rewrite Hdir, Hreg, Hname. unfold_monad.
      destruct (toml_Decode content m); [reflexivity|]. simpl. apply IH.
    + destruct (strings_Contains (Name h) "stripe-cli-") eqn:Hc; simpl; [|apply IH].
      rewrite Hdir, Hreg, Hname, Hc. unfold_monad. apply IH.
  - by rewrite Hdir, Hreg.
Qed.

(** X13.  Directories and regular files that are neither the fragment nor
    a payload are transparent: taking them out of the stream changes
    neither the result of extraction nor the world it leaves. *)
Theorem extractFromTarball_strip (t : TarStream) (w : World) :
  extractFromTarball (strip t) w = extractFromTarball t w.
Proof.
  unfold extractFromTarball. unfold_monad. by rewrite scanLoop_strip.
Qed.

Lemma scanLoop_broken (t : TarStream) (e0 : error) (m : PluginList) (d : string)
  (w : World) :
  terminal t = Some e0 ->
  exists e, (scanLoop t m d w).1 = Err e.
Proof.
  revert m d w. induction t as [|e|h content rest IH]; intros m d w Ht; simpl in *.
  - discriminate.
  - by eexists.
  - destruct (Ascii.eqb (Typeflag h) TypeDir); [by apply IH|].
    destruct (Ascii.eqb (Typeflag h) TypeReg); [|by eexists].
    destruct (String.eqb (Name h) "manifest.toml").
    + unfold_monad. destruct (toml_Decode content m); [by eexists|by apply IH].
    + destruct (strings_Contains (Name h) "stripe-cli-"); [|by apply IH].
      unfold_monad. by apply IH.
Qed.

(** X14.  A stream that the reader cannot follow to its end (a truncated
    or damaged archive) is never installed: extraction returns an error
    and leaves the files and the installed index as they were, whatever
    fragment and payload came before the damage. *)
Theorem broken_stream_stores_nothing (t : TarStream) (e0 : error) (w : World) :
  terminal t = Some e0 ->
  exists e,
    (extractFromTarball t w).1 = Err e /\
    persistent (extractFromTarball t w).2 = persistent w.
Proof.
  intros Ht.
  destruct (scanLoop_broken t e0 zeroPluginList "" w Ht) as [e He].
  pose proof (scanLoop_persistent t zeroPluginList "" w) as Hp.
  unfold extractFromTarball. unfold_monad.
  destruct (scanLoop t zeroPluginList "" w) as [[a|e1|msg] w1]; simpl in *;
    try discriminate.
  exists e1. by split.
Qed.

End ScanProperties.

(** ** Paths and annotations *)

Lemma isPluginLoop_spec (l : list (string * string)) (b : bool) :
  isPluginLoop l b = b || bool_decide (("scope", "plugin") ∈ l).
Proof.
  revert b. induction l as [|[k v] l IH]; intros b; cbn [isPluginLoop].
  - rewrite bool_decide_eq_false_2; [by rewrite orb_false_r|].
    intros H. by apply elem_of_nil in H.
  - rewrite IH.
    destruct (String.eqb_spec k "scope") as [->|Hk];
      [destruct (String.eqb_spec v "plugin") as [->|Hv]|]; cbn [andb].
    + rewrite (bool_decide_eq_true_2 (("scope", "plugin") ∈ ("scope", "plugin") :: l));
        [|by left].
      by rewrite orb_true_r.
    + f_equal. apply bool_decide_ext. rewrite elem_of_cons.
      split; [by right|]. intros [Heq|?]; [|done].
      injection Heq as Heq. by subst.
    + f_equal. apply bool_decide_ext. rewrite elem_of_cons.
      split; [by right|]. intros [Heq|?]; [|done].
      injection Heq as Heq1 Heq2. by subst.
Qed.

(** X15.  Whatever the order in which the annotations are visited, the
    command counts as a plugin command exactly when its annotation map
    gives "plugin" for the key "scope". *)
Theorem IsPluginCommand_lookup (annotations : gmap string string)
  (visit : list (string * string)) :
  visit ≡ₚ map_to_list annotations ->
  IsPluginCommand visit = bool_decide (annotations !! "scope" = Some "plugin").
Proof.
  intros Hperm. unfold IsPluginCommand. rewrite isPluginLoop_spec.
  cbn [orb]. apply bool_decide_ext. rewrite Hperm. apply elem_of_map_to_list.
Qed.

(** ** Instances of the further properties *)

Lemma mergeEntry_panics_iff_witness :
  exists msg,
    mergeEntry Fixture.hello_none (mkPluginList [Fixture.tools; Fixture.hello])
    = Panic msg.
Proof.
  apply (mergeEntry_panics_iff Fixture.hello_none
           (mkPluginList [Fixture.tools; Fixture.hello])).
  split; [reflexivity|]. apply Exists_cons_tl, Exists_cons_hd. reflexivity.
Defined.

Lemma mergeEntry_names_witness :
  NoDup (names (mkPluginList [Fixture.tools; Fixture.hello])).
Proof.
  apply (mergeEntry_names Fixture.hello (mkPluginList [Fixture.tools])).
  - reflexivity.
  - apply NoDup_singleton.
Defined.

Lemma mergeEntry_twice_witness :
  exists m2 p2,
    mergeEntry Fixture.hello (mkPluginList [Fixture.hello]) = Ok m2 /\
    lookUpLoop "hello" (Plugins m2) = Some p2 /\
    Releases p2 = [Fixture.r100; Fixture.r100].
Proof.
  destruct (mergeEntry_twice Fixture.hello zeroPluginList Fixture.r100 [])
    as (m1 & m2 & p1 & p2 & H1 & H2 & _ & Hl1 & Hl2 & Hr); [reflexivity|].
  injection H1 as <-. injection Hl1 as <-.
  exists m2, p2. by repeat split.
Defined.

Lemma AddEntry_frame_witness :
  files (@AddEntryToPluginManifest Fixture.collaborators Fixture.hello
           Fixture.stocked).2 !! "/cfg/plugins/hello" = None.
Proof.
  destruct (@AddEntry_frame Fixture.collaborators Fixture.hello Fixture.stocked)
    as (_ & Hfiles & _).
  rewrite Hfiles; [reflexivity|discriminate].
Defined.


Lemma reconcile_then_lookup_witness :
  exists w' w'' p,
    @AddEntryToPluginManifest Fixture.collaborators Fixture.hello Fixture.fresh
    = (Ok tt, w') /\
    @LookUpPlugin Fixture.collaborators "hello" w' = (Ok p, w'') /\
    last (Releases p) = Some Fixture.r100.
Proof.
  destruct (@reconcile_then_lookup Fixture.collaborators Fixture.hello Fixture.fresh
              zeroPluginList (mkPluginList [Fixture.hello]) "hello=1.0.0;"
              Fixture.r100)
    as (w' & w'' & p & Hrun & Hlook & _ & Hlast & _);
    [vm_compute; reflexivity|reflexivity..|].
  exists w', w'', p. by repeat split.
Defined.

Lemma LookUpPlugin_sound_witness :
  exists p,
    (@LookUpPlugin Fixture.collaborators "tools" Fixture.stocked).1 = Ok p /\
    Shortname p = "tools".
Proof.
  pose (w' := (@LookUpPlugin Fixture.collaborators "tools" Fixture.stocked).2).
  assert (H : @LookUpPlugin Fixture.collaborators "tools" Fixture.stocked
              = (Ok Fixture.tools, w')) by (vm_compute; reflexivity).
  destruct (@LookUpPlugin_sound Fixture.collaborators "tools" Fixture.stocked w')
    as [Hok _].
  destruct (Hok Fixture.tools H) as [Hname _].
  exists Fixture.tools. split; [exact (f_equal fst H)|exact Hname].
Defined.

Lemma GetPluginList_read_error_witness :
  let w := mkWorld {[ "/cfg/plugins.toml" := "tools=1.0.0;" ]}
             {[ "/cfg/plugins.toml" := ErrExternal "os" "permission denied" ]}
             ∅ [] [] in
  (@GetPluginList Fixture.collaborators w).1
  = Err (ErrExternal "os" "permission denied").
Proof.
  intros w.
  rewrite (@GetPluginList_read_error Fixture.collaborators w
             (ErrExternal "os" "permission denied")); reflexivity.
Defined.

Lemma GetPluginList_reload_witness :
  let w1 := (@GetPluginList Fixture.collaborators Fixture.fresh).2 in
  (@GetPluginList Fixture.collaborators w1).1 = Ok (mkPluginList [Fixture.tools]).
Proof.
  intros w1.
  rewrite (@GetPluginList_reload Fixture.collaborators Fixture.fresh w1
             (mkPluginList [Fixture.tools])); [reflexivity|].
  vm_compute. reflexivity.
Defined.

Lemma GetPluginList_frame_witness :
  files (@GetPluginList Fixture.collaborators Fixture.stocked).2
  = files Fixture.stocked.
Proof.
  destruct (@GetPluginList_frame Fixture.collaborators Fixture.stocked)
    as (_ & _ & _ & _ & Hpresent).
  apply Hpresent; [reflexivity|]. vm_compute. by eexists.
Defined.

Lemma RefreshPluginManifest_effect_witness :
  let run := @RefreshPluginManifest Fixture.collaborators "https://api.stripe.com"
               Fixture.stocked in
  run.1 = Ok tt /\
  files run.2 !! "/cfg/plugins.toml" = Some "tools=1.0.0;" /\
  installed_plugins run.2 = ["tools"].
Proof.
  intros run.
  assert (Hok : run.1 = Ok tt) by (vm_compute; reflexivity).
  destruct (@RefreshPluginManifest_effect Fixture.collaborators
              "https://api.stripe.com" Fixture.stocked) as (Hfiles & Hinst & _).
  fold run in Hfiles, Hinst. rewrite Hok in Hfiles.
  destruct Hfiles as (apiKey & base & resp & Hkey & Hbase & Hget & Hf).
  injection Hkey as <-. injection Hbase as <-. injection Hget as <-.
  split; [exact Hok|]. split; [|exact Hinst].
  rewrite Hf. apply lookup_insert_eq.
Defined.

Lemma scanLoop_result_witness :
  let run := @scanLoop Fixture.collaborators Fixture.good_archive zeroPluginList ""
               Fixture.fresh in
  run.1 = Ok (mkPluginList [Fixture.hello], "B") /\
  default "" (last (payloads Fixture.good_archive)) = "B".
Proof.
  intros run.
  assert (Hrun : run = (Ok (mkPluginList [Fixture.hello], "B"), run.2))
    by (vm_compute; reflexivity).
  split; [exact (f_equal fst Hrun)|].
  destruct (@scanLoop_result Fixture.collaborators Fixture.good_archive
              Fixture.fresh run.2 (mkPluginList [Fixture.hello]) "B" Hrun)
    as [_ Hd].
  by rewrite <- Hd.
Defined.

Lemma broken_stream_stores_nothing_witness :
  let t := Fixture.file "manifest.toml" "hello=1.0.0;"
             (Fixture.file "stripe-cli-hello" "B"
                (Broken (ErrExternal "tar" "unexpected EOF"))) in
  exists e,
    (@extractFromTarball Fixture.collaborators t Fixture.fresh).1 = Err e /\
    persistent (@extractFromTarball Fixture.collaborators t Fixture.fresh).2
    = persistent Fixture.fresh.
Proof.
  intros t.
  apply (@broken_stream_stores_nothing Fixture.collaborators t
           (ErrExternal "tar" "unexpected EOF")).
  reflexivity.
Defined.

Lemma IsPluginCommand_lookup_witness :
  IsPluginCommand
    (map_to_list ({[ "scope" := "plugin"; "kind" := "core" ]} : gmap string string))
  = true.
Proof.
  rewrite (IsPluginCommand_lookup {[ "scope" := "plugin"; "kind" := "core" ]});
    [|reflexivity].
  vm_compute. reflexivity.
Defined.
